(** * AmpliGraph loss functions: a shallow embedding and its properties

    This development embeds [ampligraph/latent_features/loss_functions.py]
    and proves properties of the six registered losses.

    Modelling conventions.
    - Scores are real numbers ([R]): the rounding of 32-bit floats is
      abstracted away, every other step of the computation is kept.
    - A rank-1 tensor is a list of reals, a rank-2 tensor a [grid] (a column
      count and a list of rows).  Scores are fed as rank-1 tensors of shape
      [n], which is what [tf.shape(scores_pos)[0]] and the reshape to
      [eta, n] in the source assume.
    - The code builds a TensorFlow 1 graph: Python statements run when
      [apply] is called, tensor operations run when the session evaluates
      the returned loss.  A Python exception is the outcome of the [M]
      computation, a runtime failure is the outcome of the [tensor].
    - Python dictionaries are [gmap string value]; [self] is threaded
      through the state-and-exception monad [M].
    - Logging has no effect on results and is left out. *)

From Stdlib Require Import Reals Lra Lia ZArith.
From stdpp Require Import gmap strings list fin_maps.

Local Open Scope string_scope.

(** ** Python values and exceptions *)

(** The values a hyperparameter dictionary holds. *)
Inductive value :=
| VNone
| VBool (b : bool)
| VInt (z : Z)
| VFloat (r : R).

Inductive exn :=
| KeyError (key : string)
| AttributeError
| TypeError
| ZeroDivisionError
| PyException (msg : string)
| AssertionFailed (data : list nat)
| IncompatibleShapes (a b : nat)
| ReshapeError (size : nat) (d0 : Z) (d1 : nat).

Inductive result (A : Type) :=
| Ok (a : A)
| Raise (e : exn).
Arguments Ok {A} a.
Arguments Raise {A} e.

#[global] Instance result_ret : MRet result := λ A a, Ok a.
#[global] Instance result_bind : MBind result := λ A B f r,
  match r with
  | Ok a => f a
  | Raise e => Raise e
  end.

(** [bool(v)] *)
Definition truthy (v : value) : bool :=
  match v with
  | VNone => false
  | VBool b => b
  | VInt z => negb (z =? 0)%Z
  | VFloat r => if Req_dec_T r 0 then false else true
  end.

(** The number a value stands for in arithmetic ([bool] is a subclass of
    [int]); [None] is not a number. *)
Definition as_number (v : value) : option R :=
  match v with
  | VNone => None
  | VBool b => Some (if b then 1 else 0)%R
  | VInt z => Some (IZR z)
  | VFloat r => Some r
  end.

(** The integer a value stands for where TensorFlow expects a dimension. *)
Definition as_dimension (v : value) : option Z :=
  match v with
  | VBool b => Some (if b then 1 else 0)%Z
  | VInt z => Some z
  | VNone | VFloat _ => None
  end.

(** [v != n] for an integer literal [n] *)
Definition py_ne_int (v : value) (n : Z) : bool :=
  match v with
  | VNone => true
  | VBool b => negb ((if b then 1 else 0) =? n)%Z
  | VInt z => negb (z =? n)%Z
  | VFloat r => if Req_dec_T r (IZR n) then false else true
  end.

(** [d[key]] *)
Definition getitem (d : gmap string value) (key : string) : result value :=
  match d !! key with
  | Some v => Ok v
  | None => Raise (KeyError key)
  end.

(** [d.get(key, dflt)] *)
Definition dict_get (d : gmap string value) (key : string) (dflt : value) : value :=
  default dflt (d !! key).

(** [a / b] on Python numbers *)
Definition py_truediv (a b : value) : result R :=
  match as_number a, as_number b with
  | Some x, Some y => if Req_dec_T y 0 then Raise ZeroDivisionError else Ok (x / y)%R
  | _, _ => Raise TypeError
  end.

(** [1 - a] on a Python number *)
Definition py_one_minus (a : value) : result R :=
  match as_number a with
  | Some x => Ok (1 - x)%R
  | None => Raise TypeError
  end.

(** ** The tensor runtime *)

Module tf.

Local Open Scope R_scope.

Definition vec := list R.

(** A rank-2 tensor of shape [length rows, ncols]; every row has [ncols]
    entries. *)
Record grid := Grid { ncols : nat; rows : list vec }.

(** What the session obtains when it evaluates a node of the graph. *)
Definition tensor (A : Type) := result A.

(** [tf.constant(v, dtype=tf.float32)] *)
Definition constant (v : value) : result R :=
  match as_number v with
  | Some x => Ok x
  | None => Raise TypeError
  end.

(** Broadcasting of one dimension: equal sizes, or one of them is 1. *)
Definition broadcast_dim (m n : nat) : tensor nat :=
  if decide (m = n) then Ok m
  else if decide (m = 1%nat) then Ok n
  else if decide (n = 1%nat) then Ok m
  else Raise (IncompatibleShapes m n).

Definition broadcast_data {A B C} (f : A → B → C) (a : list A) (b : list B) : list C :=
  if decide (length a = length b) then zip_with f a b
  else match a, b with
       | [x], _ => map (f x) b
       | _, [y] => map (λ x, f x y) a
       | _, _ => []
       end.

(** An elementwise binary operation on two rank-1 tensors. *)
Definition broadcast (f : R → R → R) (a b : vec) : tensor vec :=
  _ ← broadcast_dim (length a) (length b);
  Ok (broadcast_data f a b).

(** An elementwise binary operation on two rank-2 tensors. *)
Definition broadcast2 (f : R → R → R) (a b : grid) : tensor grid :=
  _ ← broadcast_dim (length (rows a)) (length (rows b));
  nc ← broadcast_dim (ncols a) (ncols b);
  Ok (Grid nc (broadcast_data (broadcast_data f) (rows a) (rows b))).

Definition reduce_sum (v : vec) : R := foldr Rplus 0 v.

Definition reduce_sum_all (g : grid) : R := reduce_sum (map reduce_sum (rows g)).

(** [tf.reduce_sum(g, axis=0)]: one sum per column. *)
Definition reduce_sum_axis0 (g : grid) : vec :=
  foldr (zip_with Rplus) (repeat 0 (ncols g)) (rows g).

(** [tf.reduce_mean] *)
Definition reduce_mean (v : vec) : R := reduce_sum v / INR (length v).

Definition grid_map (f : R → R) (g : grid) : grid :=
  Grid (ncols g) (map (map f) (rows g)).

(** [tf.clip_by_value(v, lo, hi)] is [maximum(minimum(v, hi), lo)]. *)
Definition clip_by_value (v : vec) (clip_value_min clip_value_max : R) : vec :=
  map (λ x, Rmax (Rmin x clip_value_max) clip_value_min) v.

Definition softplus (x : R) : R := ln (1 + exp x).

(** [tf.log_sigmoid(x)] is [-softplus(-x)]. *)
Definition log_sigmoid (x : R) : R := - softplus (- x).

Definition sigmoid (x : R) : R := 1 / (1 + exp (- x)).

(** [tf.nn.softmax(g, axis=0)] is [exp(g) / reduce_sum(exp(g), axis=0)]. *)
Definition softmax_axis0 (g : grid) : grid :=
  let e := grid_map exp g in
  let s := reduce_sum_axis0 e in
  Grid (ncols g) (map (λ row, zip_with Rdiv row s) (rows e)).

Fixpoint chunks (r c : nat) (l : vec) : list vec :=
  match r with
  | O => []
  | S r' => take c l :: chunks r' c (drop c l)
  end.

(** [tf.reshape(t, [d0, d1])] in row-major order; a dimension of -1 is
    inferred from the number of elements. *)
Definition reshape (t : vec) (d0 : Z) (d1 : nat) : tensor grid :=
  if decide (0 ≤ d0)%Z then
    if decide (length t = Z.to_nat d0 * d1)%nat
    then Ok (Grid d1 (chunks (Z.to_nat d0) d1 t))
    else Raise (ReshapeError (length t) d0 d1)
  else if decide (d0 = -1)%Z then
    if decide (d1 ≠ 0%nat ∧ (length t `mod` d1 = 0)%nat)
    then Ok (Grid d1 (chunks (length t `div` d1) d1 t))
    else Raise (ReshapeError (length t) d0 d1)
  else Raise (ReshapeError (length t) d0 d1).

(** [tf.nn.sigmoid_cross_entropy_with_logits] on one label [z] and one
    logit [x]: [max(x, 0) - x * z + log(1 + exp(-abs(x)))]. *)
Definition sigmoid_cross_entropy_with_logits (z x : R) : R :=
  Rmax x 0 - x * z + ln (1 + exp (- Rabs x)).

(** [tf.Assert(condition, data)] *)
Record assert_op := Assert { condition : bool; data : list nat }.

Definition run_assert (a : assert_op) : tensor unit :=
  if condition a then Ok tt else Raise (AssertionFailed (data a)).

(** [with tf.control_dependencies(deps)]: the nodes created in the block
    are evaluated after every operation of [deps] has succeeded. *)
Fixpoint control_dependencies {A} (deps : list assert_op) (t : tensor A) : tensor A :=
  match deps with
  | [] => t
  | a :: deps' => _ ← run_assert a; control_dependencies deps' t
  end.

End tf.

(** ** Module constants *)

(** Default margin used by pairwise and absolute margin loss *)
Definition DEFAULT_MARGIN : value := VInt 1.

(** Default sampling temperature used by adversarial loss *)
Definition DEFAULT_ALPHA_ADVERSARIAL : value := VFloat 0.5.

(** Default margin used by margin based adversarial loss *)
Definition DEFAULT_MARGIN_ADVERSARIAL : value := VInt 3.

(** Min score below which the values will be clipped before applying exponential *)
Definition DEFAULT_CLIP_EXP_LOWER : R := (-75.0)%R.

(** Max score above which the values will be clipped before applying exponential *)
Definition DEFAULT_CLIP_EXP_UPPER : R := 75.0%R.

(** Default label smoothing for ConvE *)
Definition DEFAULT_LABEL_SMOOTHING : value := VNone.

(** Default label weighting for ConvE *)
Definition DEFAULT_LABEL_WEIGHTING : value := VBool false.

(** ** The registry *)

(** The six classes the module defines, named by their registered variant. *)
Inductive loss_class :=
| Pairwise
| NLL
| AbsoluteMargin
| SelfAdversarial
| MulticlassNLL
| BCE.

#[global] Instance loss_class_eq_dec : EqDecision loss_class.
Proof. solve_decision. Defined.

(** What [register_loss] records for a class: the handle and the class
    attributes [name], [external_params] and [class_params]. *)
Record loss_descriptor := Descriptor {
  handle : loss_class;
  name : string;
  external_params : list string;
  class_params : gmap string value
}.

(** [@register_loss(name, external_params, class_params)] applied to
    [class_handle]: the registry after [insert_in_registry]. *)
Definition register_loss (name : string) (external_params : option (list string))
    (class_params : option (gmap string value)) (class_handle : loss_class)
    (LOSS_REGISTRY : gmap string loss_descriptor) : gmap string loss_descriptor :=
  let external_params := default [] external_params in
  let default_class_params : gmap string value :=
    {[ "require_same_size_pos_neg" := VBool true ]} in
  let class_params := default default_class_params class_params in
  <[ name := Descriptor class_handle name external_params
       {[ "require_same_size_pos_neg" :=
            dict_get class_params "require_same_size_pos_neg"
              (dict_get default_class_params "require_same_size_pos_neg" VNone) ]} ]>
    LOSS_REGISTRY.

(** The registry once the module is loaded: the six decorators in source
    order. *)
Definition LOSS_REGISTRY : gmap string loss_descriptor :=
  register_loss "bce" (Some ["label_smoothing"; "label_weighting"])
    (Some {[ "require_same_size_pos_neg" := VBool false ]}) BCE
  (register_loss "multiclass_nll" (Some [])
    (Some {[ "require_same_size_pos_neg" := VBool false ]}) MulticlassNLL
  (register_loss "self_adversarial" (Some ["margin"; "alpha"])
    (Some {[ "require_same_size_pos_neg" := VBool false ]}) SelfAdversarial
  (register_loss "absolute_margin" (Some ["margin"]) None AbsoluteMargin
  (register_loss "nll" None None NLL
  (register_loss "pairwise" (Some ["margin"]) None Pairwise ∅))))).

(** The class attribute [name] that [insert_in_registry] sets. *)
Definition cls_name (c : loss_class) : string :=
  match c with
  | Pairwise => "pairwise"
  | NLL => "nll"
  | AbsoluteMargin => "absolute_margin"
  | SelfAdversarial => "self_adversarial"
  | MulticlassNLL => "multiclass_nll"
  | BCE => "bce"
  end.

(** [LOSS_REGISTRY[name]] *)
Definition registry_getitem (name : string) : result loss_descriptor :=
  match LOSS_REGISTRY !! name with
  | Some d => Ok d
  | None => Raise (KeyError name)
  end.

(** [clip_before_exp]: clip the value for stability of exponential. *)
Definition clip_before_exp (value : tf.vec) : tf.vec :=
  tf.clip_by_value value DEFAULT_CLIP_EXP_LOWER DEFAULT_CLIP_EXP_UPPER.

(** ** Loss objects *)

Record instance := Self {
  cls : loss_class;
  _loss_parameters : gmap string value;
  _dependencies : list tf.assert_op
}.

(** A method body: it reads and updates [self], and returns or raises. *)
Definition M (A : Type) : Type := instance → result A * instance.

#[global] Instance M_ret : MRet M := λ A a self, (Ok a, self).
#[global] Instance M_bind : MBind M := λ A B f m self,
  match m self with
  | (Ok a, self') => f a self'
  | (Raise e, self') => (Raise e, self')
  end.

Definition raise {A} (e : exn) : M A := λ self, (Raise e, self).

Definition lift {A} (r : result A) : M A := λ self, (r, self).

Definition get_self : M instance := λ self, (Ok self, self).

(** [self._loss_parameters[key] = v] *)
Definition set_loss_parameter (key : string) (v : value) : M unit := λ self,
  (Ok tt, Self (cls self) (<[ key := v ]> (_loss_parameters self)) (_dependencies self)).

(** [self._loss_parameters[key]] *)
Definition loss_parameter (key : string) : M value := λ self,
  (getitem (_loss_parameters self) key, self).

(** [self._dependencies = deps] *)
Definition set_dependencies (deps : list tf.assert_op) : M unit := λ self,
  (Ok tt, Self (cls self) (_loss_parameters self) deps).

(** [self._dependencies.append(a)] *)
Definition append_dependency (a : tf.assert_op) : M unit := λ self,
  (Ok tt, Self (cls self) (_loss_parameters self) (_dependencies self ++ [a])).

(** [try: body except KeyError as e: handler(e)] *)
Definition try_except_KeyError {A} (body : M A) (handler : string → M A) : M A := λ self,
  match body self with
  | (Raise (KeyError e), self') => handler e self'
  | r => r
  end.

(** [hyperparam_dict.get(key, dflt)], where [hyperparam_dict] may be [None]. *)
Definition hyperparam_get (hyperparam_dict : option (gmap string value)) (key : string)
    (dflt : value) : M value :=
  match hyperparam_dict with
  | Some d => mret (dict_get d key dflt)
  | None => raise AttributeError
  end.

Definition newline : string := String (Ascii.ascii_of_nat 10) EmptyString.

(** [str(KeyError(key))] *)
Definition str_KeyError (key : string) : string := "'" ++ key ++ "'".

(** The tensor a method returned, evaluated by the session. *)
Definition evaluate {A} (m : M (tf.tensor A)) (self : instance) : result A * instance :=
  match m self with
  | (Ok t, self') => (t, self')
  | (Raise e, self') => (Raise e, self')
  end.

(** *** The abstract class *)

Module Loss.

(** The methods a subclass may override. *)
Record methods := Methods {
  _init_hyperparams : option (gmap string value) → M unit;
  _inputs_check : tf.vec → tf.vec → M unit;
  _apply : tf.vec → tf.vec → M (tf.tensor R)
}.

Definition __init__ (c : loss_class) (m : methods) (eta : Z)
    (hyperparam_dict : option (gmap string value)) (verbose : bool) : result instance :=
  let self := Self c ∅ [] in
  let body :=
    try_except_KeyError
      (set_loss_parameter "eta" (VInt eta);;
       _init_hyperparams m hyperparam_dict)
      (λ e, raise (PyException
         ("Some of the hyperparams for loss were not passed to the loss function."
            ++ newline ++ str_KeyError e))) in
  match body self with
  | (Ok _, self') => Ok self'
  | (Raise e, _) => Raise e
  end.

Definition get_state (param_name : string) : M value :=
  try_except_KeyError
    (self ← get_self;
     desc ← lift (registry_getitem (cls_name (cls self)));
     mret (dict_get (class_params desc) param_name VNone))
    (λ e, raise (PyException ("Invalid Keu." ++ newline ++ str_KeyError e))).

Definition inputs_check (scores_pos scores_neg : tf.vec) : M unit :=
  set_dependencies [];;
  self ← get_self;
  desc ← lift (registry_getitem (cls_name (cls self)));
  flag ← lift (getitem (class_params desc) "require_same_size_pos_neg");
  if truthy flag then
    eta ← loss_parameter "eta";
    if py_ne_int eta 1 then
      append_dependency
        (tf.Assert (Nat.eqb (length scores_pos) (length scores_neg))
           [length scores_pos; length scores_neg])
    else mret tt
  else mret tt.

Definition apply (m : methods) (scores_pos scores_neg : tf.vec) : M (tf.tensor R) :=
  _inputs_check m scores_pos scores_neg;;
  self ← get_self;
  loss ← _apply m scores_pos scores_neg;
  mret (tf.control_dependencies (_dependencies self) loss).

End Loss.

(** *** Pairwise, max-margin loss *)

Module PairwiseLoss.

Definition _init_hyperparams (hyperparam_dict : option (gmap string value)) : M unit :=
  v ← hyperparam_get hyperparam_dict "margin" DEFAULT_MARGIN;
  set_loss_parameter "margin" v.

Definition _apply (scores_pos scores_neg : tf.vec) : M (tf.tensor R) :=
  v ← loss_parameter "margin";
  margin ← lift (tf.constant v);
  mret (t ← tf.broadcast Rplus (map (λ p, margin - p)%R scores_pos) scores_neg;
        Ok (tf.reduce_sum (map (λ x, Rmax x 0) t))).

Definition methods : Loss.methods :=
  Loss.Methods _init_hyperparams Loss.inputs_check _apply.

Definition __init__ (eta : Z) (loss_params : option (gmap string value))
    (verbose : bool) : result instance :=
  let loss_params :=
    match loss_params with
    | None => Some {[ "margin" := DEFAULT_MARGIN ]}
    | Some d => Some d
    end in
  Loss.__init__ Pairwise methods eta loss_params verbose.

End PairwiseLoss.

(** *** Negative log-likelihood loss *)

Module NLLLoss.

Definition _init_hyperparams (hyperparam_dict : option (gmap string value)) : M unit :=
  mret tt.

Definition _apply (scores_pos scores_neg : tf.vec) : M (tf.tensor R) :=
  let scores_neg := clip_before_exp scores_neg in
  let scores_pos := clip_before_exp scores_pos in
  let scores := (map Ropp scores_pos ++ scores_neg)%list in
  mret (Ok (tf.reduce_sum (map (λ x, ln (1 + exp x))%R scores))).

Definition methods : Loss.methods :=
  Loss.Methods _init_hyperparams Loss.inputs_check _apply.

Definition __init__ (eta : Z) (loss_params : option (gmap string value))
    (verbose : bool) : result instance :=
  let loss_params :=
    match loss_params with
    | None => Some ∅
    | Some d => Some d
    end in
  Loss.__init__ NLL methods eta loss_params verbose.

End NLLLoss.

(** *** Absolute margin, max-margin loss *)

Module AbsoluteMarginLoss.

Definition _init_hyperparams (hyperparam_dict : option (gmap string value)) : M unit :=
  v ← hyperparam_get hyperparam_dict "margin" DEFAULT_MARGIN;
  set_loss_parameter "margin" v.

Definition _apply (scores_pos scores_neg : tf.vec) : M (tf.tensor R) :=
  v ← loss_parameter "margin";
  margin ← lift (tf.constant v);
  mret (t ← tf.broadcast Rminus (map (λ n, Rmax (margin + n) 0)%R scores_neg) scores_pos;
        Ok (tf.reduce_sum t)).

Definition methods : Loss.methods :=
  Loss.Methods _init_hyperparams Loss.inputs_check _apply.

Definition __init__ (eta : Z) (loss_params : option (gmap string value))
    (verbose : bool) : result instance :=
  let loss_params :=
    match loss_params with
    | None => Some {[ "margin" := DEFAULT_MARGIN ]}
    | Some d => Some d
    end in
  Loss.__init__ AbsoluteMargin methods eta loss_params verbose.

End AbsoluteMarginLoss.

(** *** Self adversarial sampling loss *)

Module SelfAdversarialLoss.

Definition _init_hyperparams (hyperparam_dict : option (gmap string value)) : M unit :=
  v ← hyperparam_get hyperparam_dict "margin" DEFAULT_MARGIN_ADVERSARIAL;
  set_loss_parameter "margin" v;;
  a ← hyperparam_get hyperparam_dict "alpha" DEFAULT_ALPHA_ADVERSARIAL;
  set_loss_parameter "alpha" a.

Definition _apply (scores_pos scores_neg : tf.vec) : M (tf.tensor R) :=
  v ← loss_parameter "margin";
  margin ← lift (tf.constant v);
  a ← loss_parameter "alpha";
  alpha ← lift (tf.constant a);
  e ← loss_parameter "eta";
  eta ← lift (match as_dimension e with Some z => Ok z | None => Raise TypeError end);
  mret (scores_neg_reshaped ← tf.reshape scores_neg eta (length scores_pos);
        let p_neg := tf.softmax_axis0 (tf.grid_map (Rmult alpha) scores_neg_reshaped) in
        weighted ← tf.broadcast2 Rmult p_neg
          (tf.grid_map tf.log_sigmoid
             (tf.grid_map (λ x, x - margin)%R (tf.grid_map Ropp scores_neg_reshaped)));
        Ok (tf.reduce_sum
              (map Ropp (map tf.log_sigmoid
                 (map (λ x, margin - x)%R (map Ropp scores_pos))))
            - tf.reduce_sum_all weighted)%R).

Definition methods : Loss.methods :=
  Loss.Methods _init_hyperparams Loss.inputs_check _apply.

Definition __init__ (eta : Z) (loss_params : option (gmap string value))
    (verbose : bool) : result instance :=
  let loss_params :=
    match loss_params with
    | None => Some (<[ "margin" := DEFAULT_MARGIN_ADVERSARIAL ]>
                     {[ "alpha" := DEFAULT_ALPHA_ADVERSARIAL ]})
    | Some d => Some d
    end in
  Loss.__init__ SelfAdversarial methods eta loss_params verbose.

End SelfAdversarialLoss.

(** *** Multiclass NLL loss *)

Module NLLMulticlass.

Definition _init_hyperparams (hyperparam_dict : option (gmap string value)) : M unit :=
  mret tt.

Definition _apply (scores_pos scores_neg : tf.vec) : M (tf.tensor R) :=
  let scores_pos := clip_before_exp scores_pos in
  let scores_neg := clip_before_exp scores_neg in
  e ← loss_parameter "eta";
  eta ← lift (match as_dimension e with Some z => Ok z | None => Raise TypeError end);
  mret (scores_neg_reshaped ← tf.reshape scores_neg eta (length scores_pos);
        let neg_exp := tf.grid_map exp scores_neg_reshaped in
        let pos_exp := map exp scores_pos in
        denominator ← tf.broadcast Rplus (tf.reduce_sum_axis0 neg_exp) pos_exp;
        softmax_score ← tf.broadcast Rdiv pos_exp denominator;
        Ok (- tf.reduce_sum (map ln softmax_score))%R).

Definition methods : Loss.methods :=
  Loss.Methods _init_hyperparams Loss.inputs_check _apply.

Definition __init__ (eta : Z) (loss_params : option (gmap string value))
    (verbose : bool) : result instance :=
  let loss_params :=
    match loss_params with
    | None => Some ∅
    | Some d => Some d
    end in
  Loss.__init__ MulticlassNLL methods eta loss_params verbose.

End NLLMulticlass.

(** *** Binary cross entropy loss *)

Module BCELoss.

Definition is_not_None (v : value) : bool :=
  match v with
  | VNone => false
  | _ => true
  end.

Definition _inputs_check (y_true y_pred : tf.vec) : M unit :=
  set_dependencies [];;
  append_dependency
    (tf.Assert (Nat.eqb (length y_pred) (length y_true)) [length y_pred; length y_true]);;
  label_smoothing ← loss_parameter "label_smoothing";
  if is_not_None label_smoothing then
    self ← get_self;
    if decide (_loss_parameters self !! "num_entities" = None) then
      raise (PyException
        ("To apply label smoothing the number of entities must be known. "
           ++ "Set using '_set_hyperparams('num_entities', value)'."))
    else mret tt
  else mret tt.

Definition _init_hyperparams (hyperparam_dict : option (gmap string value)) : M unit :=
  s ← hyperparam_get hyperparam_dict "label_smoothing" DEFAULT_LABEL_SMOOTHING;
  set_loss_parameter "label_smoothing" s;;
  w ← hyperparam_get hyperparam_dict "label_weighting" DEFAULT_LABEL_WEIGHTING;
  set_loss_parameter "label_weighting" w.

Definition _set_hyperparams (key : string) (value : value) : M unit :=
  set_loss_parameter key value.

(** The two reductions of [_apply], on the labels it has prepared. *)
Definition weighted_loss (y_true y_pred : tf.vec) : tf.tensor R :=
  let eps := (1 / 1000000)%R in
  let wt := tf.reduce_mean y_true in
  a ← tf.broadcast Rmult (map (Rmult (1 - wt)) y_true) (map tf.log_sigmoid y_pred);
  b ← tf.broadcast Rmult (map (λ y, wt * (1 - y))%R y_true)
        (map (λ x, ln (1 - tf.sigmoid x + eps))%R y_pred);
  s ← tf.broadcast Rplus a b;
  Ok (- tf.reduce_sum s)%R.

Definition unweighted_loss (y_true y_pred : tf.vec) : tf.tensor R :=
  t ← tf.broadcast tf.sigmoid_cross_entropy_with_logits y_true y_pred;
  Ok (tf.reduce_sum t).

Definition _apply (y_true y_pred : tf.vec) : M (tf.tensor R) :=
  label_smoothing ← loss_parameter "label_smoothing";
  y_true ←
    (if is_not_None label_smoothing then
       keep ← lift (py_one_minus label_smoothing);
       num_entities ← loss_parameter "num_entities";
       share ← lift (py_truediv label_smoothing num_entities);
       mret (map (λ y, keep * y + share)%R y_true)
     else mret y_true);
  label_weighting ← loss_parameter "label_weighting";
  if truthy label_weighting
  then mret (weighted_loss y_true y_pred)
  else mret (unweighted_loss y_true y_pred).

Definition methods : Loss.methods :=
  Loss.Methods _init_hyperparams _inputs_check _apply.

Definition __init__ (eta : Z) (loss_params : option (gmap string value))
    (verbose : bool) : result instance :=
  Loss.__init__ BCE methods eta loss_params verbose.

Definition apply (y_true y_pred : tf.vec) : M (tf.tensor R) :=
  _inputs_check y_true y_pred;;
  self ← get_self;
  loss ← _apply y_true y_pred;
  mret (tf.control_dependencies (_dependencies self) loss).

End BCELoss.

(** ** Selecting a loss by its class *)

Definition methods_of (c : loss_class) : Loss.methods :=
  match c with
  | Pairwise => PairwiseLoss.methods
  | NLL => NLLLoss.methods
  | AbsoluteMargin => AbsoluteMarginLoss.methods
  | SelfAdversarial => SelfAdversarialLoss.methods
  | MulticlassNLL => NLLMulticlass.methods
  | BCE => BCELoss.methods
  end.

(** [LOSS_REGISTRY[name](eta, loss_params, verbose)] *)
Definition construct (c : loss_class) (eta : Z) (loss_params : option (gmap string value))
    (verbose : bool) : result instance :=
  match c with
  | Pairwise => PairwiseLoss.__init__ eta loss_params verbose
  | NLL => NLLLoss.__init__ eta loss_params verbose
  | AbsoluteMargin => AbsoluteMarginLoss.__init__ eta loss_params verbose
  | SelfAdversarial => SelfAdversarialLoss.__init__ eta loss_params verbose
  | MulticlassNLL => NLLMulticlass.__init__ eta loss_params verbose
  | BCE => BCELoss.__init__ eta loss_params verbose
  end.

(** [self.apply(a, b)] *)
Definition apply (c : loss_class) (a b : tf.vec) : M (tf.tensor R) :=
  match c with
  | BCE => BCELoss.apply a b
  | _ => Loss.apply (methods_of c) a b
  end.

(** [session.run(self.apply(a, b))]: the value of the loss, or the error
    raised on the way, and the object afterwards. *)
Definition run_apply (self : instance) (a b : tf.vec) : result R * instance :=
  evaluate (apply (cls self) a b) self.

(** [session.run(self._apply(a, b))]: the reduction alone. *)
Definition run_reduce (self : instance) (a b : tf.vec) : result R :=
  (evaluate (Loss._apply (methods_of (cls self)) a b) self).1.

(** ** The formulas of the specification

    These definitions follow the words of the specification, one index at
    a time; the theorems below compare them with what the code computes. *)

Module Spec.

Local Open Scope R_scope.

(** The sum of [f i] for [i] below [n]. *)
Fixpoint sum_upto (n : nat) (f : nat → R) : R :=
  match n with
  | O => 0
  | S n' => sum_upto n' f + f n'
  end.

(** The score at position [i]. *)
Definition at_ (v : list R) (i : nat) : R := nth i v 0.

(** Clamp into the closed interval [-75, 75]. *)
Definition clip (x : R) : R :=
  if Rlt_dec x (-75) then -75 else if Rlt_dec 75 x then 75 else x.

Definition sigmoid (x : R) : R := 1 / (1 + exp (- x)).

Definition log_sigmoid (x : R) : R := ln (sigmoid x).

(** [sum(max(0, margin − scores_pos + scores_neg))] *)
Definition pairwise (margin : R) (scores_pos scores_neg : list R) : R :=
  sum_upto (length scores_pos)
    (λ i, Rmax 0 (margin - at_ scores_pos i + at_ scores_neg i)).

(** [sum(max(0, margin + scores_neg) − scores_pos)] *)
Definition absolute_margin (margin : R) (scores_pos scores_neg : list R) : R :=
  sum_upto (length scores_pos)
    (λ i, Rmax 0 (margin + at_ scores_neg i) - at_ scores_pos i).

(** [sum(log(1 + exp(concat(−scores_pos, scores_neg))))] on clamped scores *)
Definition nll (scores_pos scores_neg : list R) : R :=
  let x := (map (λ p, - clip p) scores_pos ++ map clip scores_neg)%list in
  sum_upto (length x) (λ i, ln (1 + exp (at_ x i))).

(** The entry in row [i] and column [j] of [scores_neg] laid out as a grid
    with [n] columns. *)
Definition scores_neg_grid (n : nat) (scores_neg : list R) (i j : nat) : R :=
  at_ scores_neg (i * n + j).

(** [softmax(alpha · scores_neg_grid, axis=0)]: in every column, over the
    [eta] negatives. *)
Definition p_neg (alpha : R) (eta n : nat) (scores_neg : list R) (i j : nat) : R :=
  exp (alpha * scores_neg_grid n scores_neg i j)
  / sum_upto eta (λ k, exp (alpha * scores_neg_grid n scores_neg k j)).

(** [−sum(log_sigmoid(margin + scores_pos))
     − sum(p_neg ⊙ log_sigmoid(−scores_neg_grid − margin))] *)
Definition self_adversarial (margin alpha : R) (eta n : nat)
    (scores_pos scores_neg : list R) : R :=
  - sum_upto n (λ i, log_sigmoid (margin + at_ scores_pos i))
  - sum_upto eta (λ i, sum_upto n (λ j,
      p_neg alpha eta n scores_neg i j
      * log_sigmoid (- scores_neg_grid n scores_neg i j - margin))).

(** [exp(scores_pos) / (sum(exp(scores_neg_grid), axis=0) + exp(scores_pos))]
    on clamped scores, at column [j] *)
Definition softmax_score (eta n : nat) (scores_pos scores_neg : list R) (j : nat) : R :=
  exp (clip (at_ scores_pos j))
  / (sum_upto eta (λ i, exp (clip (scores_neg_grid n scores_neg i j)))
     + exp (clip (at_ scores_pos j))).

(** [−sum(log(softmax_score))] *)
Definition multiclass_nll (eta n : nat) (scores_pos scores_neg : list R) : R :=
  - sum_upto n (λ j, ln (softmax_score eta n scores_pos scores_neg j)).

(** [y_true := (1 − smoothing) · y_true + smoothing / num_entities] *)
Definition smooth (smoothing num_entities : R) (y_true : list R) : list R :=
  map (λ y, (1 - smoothing) * y + smoothing / num_entities) y_true.

End Spec.

(** ** Predicates used in the statements *)

(** The hyperparameter [margin], where the object has one, is a number. *)
Definition numeric_margin (self : instance) : Prop :=
  _loss_parameters self !! "margin" ≠ Some VNone.

(** The error a failed [tf.Assert] of [_inputs_check] raises. *)
Definition is_shape_mismatch {A} (r : result A) : Prop :=
  ∃ data, r = Raise (AssertionFailed data).

(** The message of the error [BCELoss._inputs_check] raises. *)
Definition num_entities_unknown : exn :=
  PyException
    ("To apply label smoothing the number of entities must be known. "
       ++ "Set using '_set_hyperparams('num_entities', value)'.").

(** The object after [self._set_hyperparams(key, v)]. *)
Definition after_set_hyperparams (self : instance) (key : string) (v : value) : instance :=
  (BCELoss._set_hyperparams key v self).2.

(** The hyperparameters every constructor resolves from an empty mapping. *)
Definition default_loss_parameters (c : loss_class) (eta : Z) : gmap string value :=
  match c with
  | Pairwise | AbsoluteMargin => <[ "margin" := VInt 1 ]> {[ "eta" := VInt eta ]}
  | SelfAdversarial =>
      <[ "alpha" := VFloat 0.5 ]> (<[ "margin" := VInt 3 ]> {[ "eta" := VInt eta ]})
  | BCE =>
      <[ "label_weighting" := VBool false ]>
        (<[ "label_smoothing" := VNone ]> {[ "eta" := VInt eta ]})
  | NLL | MulticlassNLL => {[ "eta" := VInt eta ]}
  end.

(** The flag [require_same_size_pos_neg] each decorator passes (or leaves
    to its default). *)
Definition requires_same_size (c : loss_class) : bool :=
  match c with
  | Pairwise | NLL | AbsoluteMargin => true
  | SelfAdversarial | MulticlassNLL | BCE => false
  end.

(** The external hyperparameters each decorator declares. *)
Definition declared_params (c : loss_class) : list string :=
  match c with
  | Pairwise | AbsoluteMargin => ["margin"]
  | SelfAdversarial => ["margin"; "alpha"]
  | BCE => ["label_smoothing"; "label_weighting"]
  | NLL | MulticlassNLL => []
  end.

(** The hyperparameters a constructor resolves from the mapping [d]. *)
Definition resolved_loss_parameters (c : loss_class) (eta : Z) (d : gmap string value)
    : gmap string value :=
  match c with
  | Pairwise | AbsoluteMargin =>
      <[ "margin" := dict_get d "margin" DEFAULT_MARGIN ]> {[ "eta" := VInt eta ]}
  | SelfAdversarial =>
      <[ "alpha" := dict_get d "alpha" DEFAULT_ALPHA_ADVERSARIAL ]>
        (<[ "margin" := dict_get d "margin" DEFAULT_MARGIN_ADVERSARIAL ]>
           {[ "eta" := VInt eta ]})
  | BCE =>
      <[ "label_weighting" := dict_get d "label_weighting" DEFAULT_LABEL_WEIGHTING ]>
        (<[ "label_smoothing" := dict_get d "label_smoothing" DEFAULT_LABEL_SMOOTHING ]>
           {[ "eta" := VInt eta ]})
  | NLL | MulticlassNLL => {[ "eta" := VInt eta ]}
  end.

(** The mapping a constructor uses when [loss_params] is [None]. *)
Definition params_when_None (c : loss_class) : option (gmap string value) :=
  match c with
  | Pairwise | AbsoluteMargin => Some {[ "margin" := DEFAULT_MARGIN ]}
  | SelfAdversarial =>
      Some (<[ "margin" := DEFAULT_MARGIN_ADVERSARIAL ]>
              {[ "alpha" := DEFAULT_ALPHA_ADVERSARIAL ]})
  | NLL | MulticlassNLL => Some ∅
  | BCE => None
  end.


(** The list [f 0, ..., f (n - 1)]. *)
Definition tabulate {A} (n : nat) (f : nat → A) : list A := map f (seq 0 n).

Ltac unfold_M :=
  unfold mbind, M_bind, mret, M_ret, get_self, lift, raise, set_dependencies,
    loss_parameter, append_dependency, set_loss_parameter, hyperparam_get;
  cbn [cls _loss_parameters _dependencies fst snd].

(** Unfold the reduction hook of the class at hand down to its dictionary
    lookups and conversions. *)
Ltac unfold_hooks :=
  cbn [methods_of Loss._apply PairwiseLoss.methods NLLLoss.methods
    AbsoluteMarginLoss.methods SelfAdversarialLoss.methods NLLMulticlass.methods
    BCELoss.methods];
  unfold PairwiseLoss._apply, NLLLoss._apply, AbsoluteMarginLoss._apply,
    SelfAdversarialLoss._apply, NLLMulticlass._apply, BCELoss._apply;
  unfold_M; unfold getitem, tf.constant, py_one_minus, py_truediv.

(** * Properties *)

(** ** The model at work *)

Example registry_has_six_names :
  dom LOSS_REGISTRY
  = ({[ "pairwise"; "nll"; "absolute_margin"; "self_adversarial";
        "multiclass_nll"; "bce" ]} : gset string).
Proof. reflexivity. Qed.

Example registry_unknown_name : registry_getitem "hinge" = Raise (KeyError "hinge").
Proof. reflexivity. Qed.

Example bce_descriptor :
  LOSS_REGISTRY !! "bce"
  = Some (Descriptor BCE "bce" ["label_smoothing"; "label_weighting"]
            {[ "require_same_size_pos_neg" := VBool false ]}).
Proof. reflexivity. Qed.

Example pairwise_default_construction :
  PairwiseLoss.__init__ 2 None false
  = Ok (Self Pairwise (<[ "margin" := VInt 1 ]> {[ "eta" := VInt 2 ]}) []).
Proof. reflexivity. Qed.

Example unknown_keys_are_ignored :
  NLLLoss.__init__ 2 (Some {[ "margin" := VInt 5 ]}) false
  = Ok (Self NLL {[ "eta" := VInt 2 ]} []).
Proof. reflexivity. Qed.

Example bce_with_None_mapping : BCELoss.__init__ 2 None false = Raise AttributeError.
Proof. reflexivity. Qed.

Example pairwise_eta_2_mismatch :
  (self ← PairwiseLoss.__init__ 2 None false;
   (run_apply self [1%R; 2%R] [1%R; 2%R; 3%R]).1)
  = Raise (AssertionFailed [2; 3]).
Proof. reflexivity. Qed.

Example reshape_two_rows :
  tf.reshape [1%R; 2%R; 3%R; 4%R] 2 2 = Ok (tf.Grid 2 [[1%R; 2%R]; [3%R; 4%R]]).
Proof. reflexivity. Qed.

Example reshape_wrong_size :
  tf.reshape [1%R; 2%R; 3%R] 2 2 = Raise (ReshapeError 3 2 2).
Proof. reflexivity. Qed.

(** ** Sums and lists *)

Section sums.

Local Open Scope R_scope.

Lemma sum_upto_ext n f g :
  (∀ i, (i < n)%nat → f i = g i) → Spec.sum_upto n f = Spec.sum_upto n g.
Proof.
  induction n as [|n IH]; intros Hfg; simpl; [done|].
  rewrite IH, (Hfg n) by (intros; try apply Hfg; lia). done.
Qed.

Lemma sum_upto_shift n f :
  Spec.sum_upto (S n) f = f O + Spec.sum_upto n (λ i, f (S i)).
Proof.
  induction n as [|n IH]; simpl in *; [lra|].
  rewrite IH. lra.
Qed.

Lemma reduce_sum_nth (l : list R) :
  tf.reduce_sum l = Spec.sum_upto (length l) (λ i, nth i l 0).
Proof.
  induction l as [|x l IH]; [done|].
  change (length (x :: l)) with (S (length l)).
  rewrite sum_upto_shift. simpl. rewrite IH. done.
Qed.

Lemma reduce_sum_tabulate n f :
  tf.reduce_sum (map f (seq 0 n)) = Spec.sum_upto n f.
Proof.
  rewrite reduce_sum_nth, length_map, length_seq.
  apply sum_upto_ext. intros i Hi.
  rewrite (nth_indep _ 0 (f O)) by (rewrite length_map, length_seq; lia).
  rewrite map_nth, seq_nth by lia. done.
Qed.

Lemma sum_upto_opp n f :
  Spec.sum_upto n (λ i, - f i) = - Spec.sum_upto n f.
Proof. induction n as [|n IH]; simpl; [lra|]. rewrite IH. lra. Qed.

Lemma sum_upto_scal n f c :
  Spec.sum_upto n (λ i, f i / c) = Spec.sum_upto n f / c.
Proof. induction n as [|n IH]; simpl; [lra|]. rewrite IH. lra. Qed.

Lemma sum_upto_pos n f :
  (0 < n)%nat → (∀ i, (i < n)%nat → 0 < f i) → 0 < Spec.sum_upto n f.
Proof.
  induction n as [|n IH]; intros Hn Hf; [lia|]. simpl.
  destruct n as [|n].
  - simpl. specialize (Hf O ltac:(lia)). lra.
  - assert (0 < Spec.sum_upto (S n) f) by (apply IH; [lia|intros; apply Hf; lia]).
    specialize (Hf (S n) ltac:(lia)). lra.
Qed.

Lemma nth_zip_with (f : R → R → R) (a b : list R) i :
  (i < length a)%nat → (i < length b)%nat →
  nth i (zip_with f a b) 0 = f (nth i a 0) (nth i b 0).
Proof.
  revert b i. induction a as [|x a IH]; intros [|y b] [|i] Ha Hb; simpl in *;
    try lia; [done|]. apply IH; lia.
Qed.

Lemma nth_map_lt (f : R → R) (l : list R) i :
  (i < length l)%nat → nth i (map f l) 0 = f (nth i l 0).
Proof.
  intros Hi. rewrite (nth_indep _ 0 (f 0)) by (rewrite length_map; lia).
  apply map_nth.
Qed.

End sums.

(** ** The registry and the constructors *)

Lemma registry_getitem_cls c :
  registry_getitem (cls_name c) =
  Ok (Descriptor c (cls_name c) (declared_params c)
        {[ "require_same_size_pos_neg" := VBool (requires_same_size c) ]}).
Proof. destruct c; reflexivity. Qed.

Lemma construct_Some c eta d verbose :
  construct c eta (Some d) verbose = Ok (Self c (resolved_loss_parameters c eta d) []).
Proof. destruct c; reflexivity. Qed.

Lemma construct_None c eta verbose :
  construct c eta None verbose =
  match params_when_None c with
  | Some d => construct c eta (Some d) verbose
  | None => Raise AttributeError
  end.
Proof. destruct c; reflexivity. Qed.

Lemma get_state_eq self p :
  Loss.get_state p self =
  (Ok (if decide (p = "require_same_size_pos_neg")
       then VBool (requires_same_size (cls self))
       else VNone), self).
Proof.
  unfold Loss.get_state, try_except_KeyError. unfold_M.
  rewrite registry_getitem_cls. cbn [class_params].
  unfold dict_get. case_decide as Hp.
  - subst p. rewrite lookup_singleton_eq. done.
  - rewrite lookup_singleton_ne by done. done.
Qed.

Lemma inputs_check_eq self pos neg :
  Loss.inputs_check pos neg self =
  match _loss_parameters self !! "eta" with
  | Some eta =>
      (Ok tt, Self (cls self) (_loss_parameters self)
         (if requires_same_size (cls self) && py_ne_int eta 1
          then [tf.Assert (Nat.eqb (length pos) (length neg)) [length pos; length neg]]
          else []))
  | None =>
      if requires_same_size (cls self)
      then (Raise (KeyError "eta"), Self (cls self) (_loss_parameters self) [])
      else (Ok tt, Self (cls self) (_loss_parameters self) [])
  end.
Proof.
  unfold Loss.inputs_check. unfold_M.
  rewrite registry_getitem_cls. cbn [class_params].
  unfold getitem at 1. rewrite lookup_singleton_eq. cbn [truthy].
  destruct (requires_same_size (cls self)); cbn [andb].
  - unfold getitem. cbn [cls _loss_parameters _dependencies].
    destruct (_loss_parameters self !! "eta") as [eta|]; [|done].
    destruct (py_ne_int eta 1); done.
  - cbn [cls _loss_parameters _dependencies]. destruct (_ !! "eta"); done.
Qed.

(** ** The reductions of the margin and likelihood losses *)

Section reductions.

Local Open Scope R_scope.

Lemma broadcast_same_length f (a b : tf.vec) :
  length a = length b → tf.broadcast f a b = Ok (zip_with f a b).
Proof.
  intros Hab. unfold tf.broadcast, tf.broadcast_dim, tf.broadcast_data.
  rewrite !decide_True by done. done.
Qed.

Lemma clip_before_exp_spec (v : tf.vec) : clip_before_exp v = map Spec.clip v.
Proof.
  unfold clip_before_exp, tf.clip_by_value. apply map_ext. intros x.
  unfold Spec.clip, DEFAULT_CLIP_EXP_LOWER, DEFAULT_CLIP_EXP_UPPER, Rmax, Rmin.
  repeat destruct Rle_dec; repeat destruct Rlt_dec; lra.
Qed.

Lemma clip_range x : -75 <= Spec.clip x <= 75.
Proof. unfold Spec.clip. repeat destruct Rlt_dec; lra. Qed.

Lemma clip_id x : -75 <= x <= 75 → Spec.clip x = x.
Proof. unfold Spec.clip. repeat destruct Rlt_dec; lra. Qed.

Lemma pairwise_reduce ps ds v m (pos neg : tf.vec) :
  ps !! "margin" = Some v → as_number v = Some m → length pos = length neg →
  run_reduce (Self Pairwise ps ds) pos neg = Ok (Spec.pairwise m pos neg).
Proof.
  intros Hv Hm Hlen. unfold run_reduce, evaluate.
  cbn [cls methods_of PairwiseLoss.methods Loss._apply].
  unfold PairwiseLoss._apply. unfold_M.
  unfold getitem. rewrite Hv. unfold tf.constant. rewrite Hm. cbn [fst].
  rewrite broadcast_same_length by (rewrite length_map; done).
  cbn [mbind result_bind]. f_equal.
  rewrite reduce_sum_nth, length_map, length_zip_with, length_map, <- Hlen, Nat.min_id.
  apply sum_upto_ext. intros i Hi. unfold Spec.at_.
  rewrite nth_map_lt by (rewrite length_zip_with, length_map; lia).
  rewrite nth_zip_with by (rewrite ?length_map; lia).
  rewrite nth_map_lt by done. apply Rmax_comm.
Qed.

Lemma absolute_margin_reduce ps ds v m (pos neg : tf.vec) :
  ps !! "margin" = Some v → as_number v = Some m → length pos = length neg →
  run_reduce (Self AbsoluteMargin ps ds) pos neg = Ok (Spec.absolute_margin m pos neg).
Proof.
  intros Hv Hm Hlen. unfold run_reduce, evaluate.
  cbn [cls methods_of AbsoluteMarginLoss.methods Loss._apply].
  unfold AbsoluteMarginLoss._apply. unfold_M.
  unfold getitem. rewrite Hv. unfold tf.constant. rewrite Hm. cbn [fst].
  rewrite broadcast_same_length by (rewrite length_map; done).
  cbn [mbind result_bind]. f_equal.
  rewrite reduce_sum_nth, length_zip_with, length_map, <- Hlen, Nat.min_id.
  apply sum_upto_ext. intros i Hi. unfold Spec.at_.
  rewrite nth_zip_with by (rewrite ?length_map; lia).
  rewrite nth_map_lt by lia. f_equal. apply Rmax_comm.
Qed.

Lemma nll_reduce ps ds (pos neg : tf.vec) :
  run_reduce (Self NLL ps ds) pos neg = Ok (Spec.nll pos neg).
Proof.
  unfold run_reduce, evaluate.
  cbn [cls methods_of NLLLoss.methods Loss._apply]. unfold NLLLoss._apply. unfold_M.
  f_equal. rewrite !clip_before_exp_spec. unfold Spec.nll.
  rewrite map_map. set (x := (_ ++ _)%list).
  rewrite reduce_sum_nth, length_map. apply sum_upto_ext. intros i Hi.
  unfold Spec.at_. rewrite (nth_indep _ 0 (ln (1 + exp 0))) by (rewrite length_map; done).
  apply (map_nth (λ x, ln (1 + exp x))).
Qed.

End reductions.

(** ** What [apply] does around the reduction *)

Lemma apply_hook_state c a b self : (Loss._apply (methods_of c) a b self).2 = self.
Proof.
  destruct c; unfold_hooks.
  all: try done;
    repeat (cbn [fst snd cls _loss_parameters _dependencies] in *;
            case_match; simplify_eq; try done).
Qed.

Lemma apply_hook_deps c a b k ps ds ds' :
  (Loss._apply (methods_of c) a b (Self k ps ds)).1
  = (Loss._apply (methods_of c) a b (Self k ps ds')).1.
Proof.
  destruct c; unfold_hooks.
  all: try done;
    repeat (cbn [fst snd cls _loss_parameters _dependencies] in *;
            case_match; simplify_eq; try done).
Qed.
Lemma evaluate_fst {A} (m : M (tf.tensor A)) self :
  (evaluate m self).1 = match (m self).1 with Ok t => t | Raise e => Raise e end.
Proof. unfold evaluate. destruct (m self) as [[t|e] s]; done. Qed.


Lemma Loss_apply_eq m a b self :
  Loss.apply m a b self =
  match Loss._inputs_check m a b self with
  | (Ok _, self') =>
      match Loss._apply m a b self' with
      | (Ok t, s) => (Ok (tf.control_dependencies (_dependencies self') t), s)
      | (Raise e, s) => (Raise e, s)
      end
  | (Raise e, self') => (Raise e, self')
  end.
Proof.
  unfold Loss.apply. unfold_M. destruct (Loss._inputs_check m a b self) as [[[]|e] self']; done.
Qed.

Lemma BCE_apply_eq a b self :
  BCELoss.apply a b self =
  match BCELoss._inputs_check a b self with
  | (Ok _, self') =>
      match BCELoss._apply a b self' with
      | (Ok t, s) => (Ok (tf.control_dependencies (_dependencies self') t), s)
      | (Raise e, s) => (Raise e, s)
      end
  | (Raise e, self') => (Raise e, self')
  end.
Proof.
  unfold BCELoss.apply. unfold_M. destruct (BCELoss._inputs_check a b self) as [[[]|e] self']; done.
Qed.

Lemma inputs_check_not_BCE c : c ≠ BCE → Loss._inputs_check (methods_of c) = Loss.inputs_check.
Proof. destruct c; done. Qed.

Lemma apply_not_BCE c : c ≠ BCE → apply c = Loss.apply (methods_of c).
Proof. destruct c; done. Qed.

(** The outcome of [apply] for the classes that keep the check of the
    abstract class. *)
Lemma run_apply_checked c ps ds a b eta :
  c ≠ BCE → ps !! "eta" = Some eta →
  run_apply (Self c ps ds) a b =
  let deps :=
    if requires_same_size c && py_ne_int eta 1
    then [tf.Assert (Nat.eqb (length a) (length b)) [length a; length b]]
    else [] in
  (match (Loss._apply (methods_of c) a b (Self c ps ds)).1 with
   | Ok t => tf.control_dependencies deps t
   | Raise e => Raise e
   end, Self c ps deps).
Proof.
  intros Hc Heta. unfold run_apply, evaluate. cbn [cls].
  rewrite apply_not_BCE, Loss_apply_eq, inputs_check_not_BCE, inputs_check_eq by done.
  cbn [cls _loss_parameters]. rewrite Heta. cbn zeta.
  match goal with |- context [Self c ps (if ?x then ?y else ?z)] =>
    set (deps := if x then y else z) end.
  pose proof (apply_hook_state c a b (Self c ps deps)) as Hst.
  rewrite (apply_hook_deps c a b c ps ds deps).
  destruct (Loss._apply (methods_of c) a b (Self c ps deps)) as [[t|e] s];
    cbn [fst snd] in *; subst s; done.
Qed.

Lemma run_apply_unchecked c ps ds a b :
  c ≠ BCE → requires_same_size c = false →
  run_apply (Self c ps ds) a b = (run_reduce (Self c ps ds) a b, Self c ps []).
Proof.
  intros Hc Hflag. unfold run_apply, evaluate, run_reduce. cbn [cls].
  rewrite apply_not_BCE, Loss_apply_eq, inputs_check_not_BCE, inputs_check_eq by done.
  cbn [cls _loss_parameters]. rewrite Hflag. cbn [andb].
  assert (match ps !! "eta" with
          | Some _ | None => (Ok (), Self c ps [])
          end = (Ok (), Self c ps [])) as -> by (destruct (ps !! "eta"); done).
  rewrite evaluate_fst.
  pose proof (apply_hook_state c a b (Self c ps [])) as Hst.
  rewrite (apply_hook_deps c a b c ps ds []).
  destruct (Loss._apply (methods_of c) a b (Self c ps [])) as [[t|e] s];
    cbn [fst snd] in *; subst s; done.
Qed.

(** ** The same-length check *)

Lemma construct_inv c eta loss_params verbose self :
  construct c eta loss_params verbose = Ok self →
  ∃ d, self = Self c (resolved_loss_parameters c eta d) [].
Proof.
  destruct loss_params as [d|].
  - rewrite construct_Some. intros [= <-]. by exists d.
  - rewrite construct_None. destruct (params_when_None c) as [d|]; [|done].
    rewrite construct_Some. intros [= <-]. by exists d.
Qed.

Lemma resolved_eta c eta d : resolved_loss_parameters c eta d !! "eta" = Some (VInt eta).
Proof. destruct c; reflexivity. Qed.

Lemma as_number_not_None v : v ≠ VNone → ∃ m, as_number v = Some m.
Proof. destruct v; [done|eauto..]. Qed.

Lemma control_dependencies_nil {A} (t : tf.tensor A) : tf.control_dependencies [] t = t.
Proof. done. Qed.

Lemma control_dependencies_one {A} cond data (t : tf.tensor A) :
  tf.control_dependencies [tf.Assert cond data] t
  = if cond then t else Raise (AssertionFailed data).
Proof. cbn. unfold tf.run_assert. cbn. destruct cond; done. Qed.

Lemma broadcast_outcome f (a b : tf.vec) :
  (∃ t, tf.broadcast f a b = Ok t
        ∧ (length a = length b ∨ length a = 1%nat ∨ length b = 1%nat))
  ∨ (tf.broadcast f a b = Raise (IncompatibleShapes (length a) (length b))
     ∧ length a ≠ length b ∧ length a ≠ 1%nat ∧ length b ≠ 1%nat).
Proof.
  unfold tf.broadcast, tf.broadcast_dim. repeat case_decide; cbn; eauto 10.
Qed.

(** The tensor the reduction hook of a margin or likelihood loss returns. *)
Lemma same_size_hook_ok c ps ds a b :
  requires_same_size c = true → numeric_margin (Self c ps ds) →
  (c = NLL ∨ is_Some (ps !! "margin")) →
  (Loss._apply (methods_of c) a b (Self c ps ds)).1 = Ok (run_reduce (Self c ps ds) a b).
Proof.
  intros Hc Hnum Hm. unfold run_reduce. rewrite evaluate_fst. cbn [cls].
  unfold numeric_margin in Hnum. cbn [_loss_parameters] in Hnum.
  destruct c; try done; cbn [methods_of Loss._apply PairwiseLoss.methods NLLLoss.methods
    AbsoluteMarginLoss.methods];
    unfold PairwiseLoss._apply, NLLLoss._apply, AbsoluteMarginLoss._apply;
    unfold_M; try done.
  all: destruct Hm as [|[v Hv]]; [done|]; unfold getitem; rewrite Hv.
  all: destruct (as_number_not_None v) as [m Hmv]; [congruence|].
  all: unfold tf.constant; rewrite Hmv; done.
Qed.

Lemma same_size_reduce_outcome c ps ds a b :
  requires_same_size c = true → numeric_margin (Self c ps ds) →
  (c = NLL ∨ is_Some (ps !! "margin")) →
  (∃ loss, run_reduce (Self c ps ds) a b = Ok loss
           ∧ (c = NLL ∨ length a = length b ∨ length a = 1%nat ∨ length b = 1%nat))
  ∨ (run_reduce (Self c ps ds) a b = Raise (IncompatibleShapes (length a) (length b))
     ∧ c ≠ NLL ∧ length a ≠ length b ∧ length a ≠ 1%nat ∧ length b ≠ 1%nat)
  ∨ (run_reduce (Self c ps ds) a b = Raise (IncompatibleShapes (length b) (length a))
     ∧ c ≠ NLL ∧ length a ≠ length b ∧ length a ≠ 1%nat ∧ length b ≠ 1%nat).
Proof.
  intros Hc Hnum Hm. unfold numeric_margin in Hnum. cbn [_loss_parameters] in Hnum.
  destruct c; try done.
  - destruct Hm as [|[v Hv]]; [done|].
    destruct (as_number_not_None v) as [m Hmv]; [congruence|].
    unfold run_reduce, evaluate. cbn [cls methods_of PairwiseLoss.methods Loss._apply].
    unfold PairwiseLoss._apply. unfold_M. unfold getitem. rewrite Hv.
    unfold tf.constant. rewrite Hmv. cbn [fst].
    destruct (broadcast_outcome Rplus (map (λ p, m - p)%R a) b) as [(t & -> & Ht)|(-> & Ht)];
      rewrite length_map in Ht; cbn [mbind result_bind]; rewrite ?length_map.
    + left. eexists. split; [done|]. right. exact Ht.
    + right. left. repeat split; [done|lia..].
  - left. rewrite nll_reduce. eauto.
  - destruct Hm as [|[v Hv]]; [done|].
    destruct (as_number_not_None v) as [m Hmv]; [congruence|].
    unfold run_reduce, evaluate. cbn [cls methods_of AbsoluteMarginLoss.methods Loss._apply].
    unfold AbsoluteMarginLoss._apply. unfold_M. unfold getitem. rewrite Hv.
    unfold tf.constant. rewrite Hmv. cbn [fst].
    destruct (broadcast_outcome Rminus (map (λ n, Rmax (m + n) 0)%R b) a) as [(t & -> & Ht)|(-> & Ht)];
      rewrite length_map in Ht; cbn [mbind result_bind]; rewrite ?length_map.
    + left. eexists. split; [done|]. right. lia.
    + right. right. repeat split; [done|lia..].
Qed.

Lemma reduce_not_shape_mismatch c ps ds a b :
  ¬ is_shape_mismatch (run_reduce (Self c ps ds) a b).
Proof.
  intros [data Hr]. revert Hr. unfold run_reduce. rewrite evaluate_fst. cbn [cls].
  destruct c; unfold_hooks;
    unfold BCELoss.weighted_loss, BCELoss.unweighted_loss,
      tf.reshape, tf.broadcast, tf.broadcast2, tf.broadcast_dim.
  all: try done;
    repeat (cbn [fst snd cls _loss_parameters _dependencies mbind result_bind] in *;
            first [case_match | case_decide]; simplify_eq; try done).
Qed.

Lemma resolved_margin_is_Some c eta d :
  requires_same_size c = true →
  c = NLL ∨ is_Some (resolved_loss_parameters c eta d !! "margin").
Proof. destruct c; try done; eauto. Qed.

(** Claim C3 (amended).  For the pairwise, nll and absolute_margin losses
    the descriptor flag [require_same_size_pos_neg] is true.  On an object
    built by the constructor whose margin is a number: when [eta] is not 1
    and the two inputs differ in length, [apply] fails with the error of the
    same-length assertion; when [eta] is 1 no length check is made: the
    list of assertions is empty, [apply] returns what the reduction returns
    and never the assertion's error, and it yields a loss exactly when the
    loss is nll or the lengths are equal or one of them is 1 (the
    elementwise arithmetic of pairwise and absolute_margin cannot pair
    other lengths).  The check is recomputed on every call: whatever
    assertions an earlier call left behind, the outcome is the same. *)
Theorem same_size_check c eta loss_params verbose self (scores_pos scores_neg : tf.vec) :
  requires_same_size c = true →
  construct c eta loss_params verbose = Ok self →
  numeric_margin self →
  (Loss.get_state "require_same_size_pos_neg" self).1 = Ok (VBool true)
  ∧ (eta ≠ 1%Z → length scores_pos ≠ length scores_neg →
       (run_apply self scores_pos scores_neg).1
       = Raise (AssertionFailed [length scores_pos; length scores_neg]))
  ∧ (eta = 1%Z →
       _dependencies (run_apply self scores_pos scores_neg).2 = []
       ∧ (run_apply self scores_pos scores_neg).1 = run_reduce self scores_pos scores_neg
       ∧ ¬ is_shape_mismatch (run_apply self scores_pos scores_neg).1
       ∧ ((c = NLL ∨ length scores_pos = length scores_neg
           ∨ length scores_pos = 1%nat ∨ length scores_neg = 1%nat)
          ↔ ∃ loss, (run_apply self scores_pos scores_neg).1 = Ok loss))
  ∧ (∀ deps,
       run_apply (Self (cls self) (_loss_parameters self) deps) scores_pos scores_neg
       = run_apply self scores_pos scores_neg).
Proof.
  intros Hc Hself Hnum. destruct (construct_inv _ _ _ _ _ Hself) as [d ->].
  assert (c ≠ BCE) as HBCE by (intros ->; done).
  pose proof (resolved_margin_is_Some c eta d Hc) as Hm.
  cbn [cls _loss_parameters].
  split; [|split; [|split]].
  - rewrite get_state_eq. cbn [fst cls]. rewrite decide_True by done. by rewrite Hc.
  - intros Heta Hlen.
    rewrite (run_apply_checked _ _ _ _ _ (VInt eta)) by (done || apply resolved_eta).
    cbn zeta. cbn [fst]. rewrite same_size_hook_ok by done.
    rewrite Hc. cbn [andb py_ne_int].
    destruct (Z.eqb_spec eta 1) as [|_]; [done|]. cbn [negb].
    rewrite control_dependencies_one.
    destruct (Nat.eqb_spec (length scores_pos) (length scores_neg)); done.
  - intros ->.
    rewrite (run_apply_checked _ _ _ _ _ (VInt 1)) by (done || apply resolved_eta).
    cbn zeta. cbn [fst snd]. rewrite same_size_hook_ok by done.
    rewrite Hc. cbn [andb py_ne_int Z.eqb Pos.eqb negb _dependencies].
    rewrite control_dependencies_nil.
    destruct (same_size_reduce_outcome c _ [] scores_pos scores_neg Hc Hnum Hm)
      as [(loss & Hr & Hl)|[(Hr & Hl)|(Hr & Hl)]]; rewrite Hr.
    + repeat split; [by intros [? ?]|eauto|done].
    + repeat split; [by intros [? ?]| |by intros [? ?]].
      intros [->|?]; [by destruct Hl|lia].
    + repeat split; [by intros [? ?]| |by intros [? ?]].
      intros [->|?]; [by destruct Hl|lia].
  - intros deps.
    rewrite !(run_apply_checked _ _ _ _ _ (VInt eta)) by (done || apply resolved_eta).
    cbn zeta. by rewrite (apply_hook_deps c _ _ c _ deps []).
Qed.

(** ** Binary cross entropy: its own check *)

Lemma BCE_inputs_check_eq c ps ds (y_true y_pred : tf.vec) :
  BCELoss._inputs_check y_true y_pred (Self c ps ds) =
  let deps := [tf.Assert (Nat.eqb (length y_pred) (length y_true))
                 [length y_pred; length y_true]] in
  (match ps !! "label_smoothing" with
   | None => Raise (KeyError "label_smoothing")
   | Some s =>
       if BCELoss.is_not_None s && bool_decide (ps !! "num_entities" = None)
       then Raise num_entities_unknown
       else Ok tt
   end, Self c ps deps).
Proof.
  unfold BCELoss._inputs_check. unfold_M. unfold getitem.
  destruct (ps !! "label_smoothing") as [s|]; [|done].
  destruct (BCELoss.is_not_None s); [|done]. cbn [andb].
  case_decide as Hn.
  - rewrite bool_decide_eq_true_2 by done. done.
  - rewrite bool_decide_eq_false_2 by done. done.
Qed.

Lemma BCE_run_apply ps ds (y_true y_pred : tf.vec) :
  run_apply (Self BCE ps ds) y_true y_pred =
  let deps := [tf.Assert (Nat.eqb (length y_pred) (length y_true))
                 [length y_pred; length y_true]] in
  (match (BCELoss._inputs_check y_true y_pred (Self BCE ps ds)).1 with
   | Ok _ =>
       match (BCELoss._apply y_true y_pred (Self BCE ps ds)).1 with
       | Ok t => tf.control_dependencies deps t
       | Raise e => Raise e
       end
   | Raise e => Raise e
   end, Self BCE ps deps).
Proof.
  unfold run_apply, evaluate. cbn [cls apply]. rewrite BCE_apply_eq, BCE_inputs_check_eq.
  cbn zeta. cbn [fst].
  match goal with |- context [Self BCE ps ?d] => set (deps := d) end.
  pose proof (apply_hook_state BCE y_true y_pred (Self BCE ps deps)) as Hst.
  pose proof (apply_hook_deps BCE y_true y_pred BCE ps ds deps) as Hds.
  cbn [methods_of Loss._apply BCELoss.methods] in Hst, Hds. rewrite Hds.
  destruct (ps !! "label_smoothing") as [s|]; [|done].
  destruct (_ && _); [done|].
  destruct (BCELoss._apply y_true y_pred (Self BCE ps deps)) as [[t|e] s'];
    cbn [fst snd] in *; subst s'; done.
Qed.

Lemma BCE_same_size_enforced ps ds (y_true y_pred : tf.vec) :
  _dependencies (run_apply (Self BCE ps ds) y_true y_pred).2
  = [tf.Assert (Nat.eqb (length y_pred) (length y_true)) [length y_pred; length y_true]]
  ∧ ∀ loss, (run_apply (Self BCE ps ds) y_true y_pred).1 = Ok loss →
            length y_true = length y_pred.
Proof.
  rewrite BCE_run_apply. cbn zeta. cbn [fst snd _dependencies]. split; [done|].
  intros loss. destruct (BCELoss._inputs_check _ _ _).1; [|done].
  destruct (BCELoss._apply _ _ _).1 as [t|]; [|done].
  rewrite control_dependencies_one.
  destruct (Nat.eqb_spec (length y_pred) (length y_true)); done.
Qed.

Section bce.
Local Open Scope R_scope.

Lemma weighted_loss_ok (y_true y_pred : tf.vec) :
  length y_true = length y_pred → ∃ loss, BCELoss.weighted_loss y_true y_pred = Ok loss.
Proof.
  intros Hlen. unfold BCELoss.weighted_loss.
  rewrite !broadcast_same_length by (rewrite !length_map; done).
  cbn [mbind result_bind].
  rewrite broadcast_same_length by (rewrite !length_zip_with, !length_map; lia).
  cbn [mbind result_bind]. eauto.
Qed.

Lemma unweighted_loss_ok (y_true y_pred : tf.vec) :
  length y_true = length y_pred → ∃ loss, BCELoss.unweighted_loss y_true y_pred = Ok loss.
Proof.
  intros Hlen. unfold BCELoss.unweighted_loss.
  rewrite broadcast_same_length by done. cbn [mbind result_bind]. eauto.
Qed.

End bce.

Lemma is_not_None_true v : v ≠ VNone → BCELoss.is_not_None v = true.
Proof. by destruct v. Qed.

Lemma BCE_apply_with_smoothing ps ds s smoothing v w (y_true y_pred : tf.vec) :
  ps !! "label_smoothing" = Some s → as_number s = Some smoothing →
  ps !! "num_entities" = Some v → ps !! "label_weighting" = Some w →
  (run_apply (Self BCE ps ds) y_true y_pred).1 =
  match as_number v with
  | None => Raise TypeError
  | Some num_entities =>
      if Req_dec_T num_entities 0 then Raise ZeroDivisionError
      else
        tf.control_dependencies
          [tf.Assert (Nat.eqb (length y_pred) (length y_true))
             [length y_pred; length y_true]]
          ((if truthy w then BCELoss.weighted_loss else BCELoss.unweighted_loss)
             (Spec.smooth smoothing num_entities y_true) y_pred)
  end.
Proof.
  intros Hs Hsm Hv Hw. rewrite BCE_run_apply. cbn zeta. cbn [fst].
  rewrite BCE_inputs_check_eq. cbn zeta. cbn [fst].
  rewrite Hs, bool_decide_eq_false_2, andb_false_r by congruence.
  unfold BCELoss._apply. unfold_M. unfold getitem.
  rewrite Hs, is_not_None_true by (intros ->; done).
  unfold py_one_minus, py_truediv. rewrite Hsm.
  cbn [fst snd cls _loss_parameters _dependencies]. rewrite Hv.
  destruct (as_number v) as [num_entities|]; [|done].
  destruct (Req_dec_T num_entities 0); [done|].
  cbn [fst snd cls _loss_parameters _dependencies]. rewrite Hw.
  cbn [fst snd cls _loss_parameters _dependencies].
  fold (Spec.smooth smoothing num_entities y_true).
  by destruct (truthy w).
Qed.

(** Claim C9 (amended).  For a bce loss whose label smoothing is enabled
    (not [None]) and that has no [num_entities], every [apply] call fails
    with the configuration error, which the input check raises before the
    reduction is reached.  After [_set_hyperparams('num_entities', v)] with
    [v] a number other than zero, the same call on two inputs of equal
    length succeeds, and its loss is the reduction of the smoothed labels
    [(1 − smoothing) · y_true + smoothing / num_entities]. *)
Theorem label_smoothing_needs_num_entities self s w v (y_true y_pred : tf.vec) :
  cls self = BCE →
  _loss_parameters self !! "label_smoothing" = Some s →
  s ≠ VNone →
  _loss_parameters self !! "label_weighting" = Some w →
  _loss_parameters self !! "num_entities" = None →
  (BCELoss._inputs_check y_true y_pred self).1 = Raise num_entities_unknown
  ∧ (run_apply self y_true y_pred).1 = Raise num_entities_unknown
  ∧ (∀ smoothing num_entities,
       as_number s = Some smoothing →
       as_number v = Some num_entities → num_entities ≠ 0%R →
       length y_true = length y_pred →
       ∃ loss,
         (run_apply (after_set_hyperparams self "num_entities" v) y_true y_pred).1
         = Ok loss
         ∧ Ok loss =
           (if truthy w then BCELoss.weighted_loss else BCELoss.unweighted_loss)
             (Spec.smooth smoothing num_entities y_true) y_pred).
Proof.
  destruct self as [c ps ds]. cbn [cls _loss_parameters].
  intros -> Hs Hnn Hw Hne.
  assert ((BCELoss._inputs_check y_true y_pred (Self BCE ps ds)).1
          = Raise num_entities_unknown) as Hcheck.
  { rewrite BCE_inputs_check_eq. cbn zeta. cbn [fst].
    rewrite Hs, is_not_None_true, bool_decide_eq_true_2 by done. done. }
  split; [done|split].
  - rewrite BCE_run_apply. cbn zeta. cbn [fst]. by rewrite Hcheck.
  - intros smoothing num_entities Hsm Hv Hnz Hlen.
    unfold after_set_hyperparams, BCELoss._set_hyperparams, set_loss_parameter.
    cbn [snd cls _loss_parameters _dependencies].
    rewrite (BCE_apply_with_smoothing _ _ s smoothing v w)
      by (done || by rewrite ?lookup_insert_eq, ?lookup_insert_ne).
    rewrite Hv. destruct (Req_dec_T num_entities 0) as [|_]; [done|].
    rewrite control_dependencies_one, Hlen, Nat.eqb_refl.
    assert (length (Spec.smooth smoothing num_entities y_true) = length y_pred) as Hlen'
      by (unfold Spec.smooth; by rewrite length_map).
    destruct (truthy w).
    + destruct (weighted_loss_ok _ _ Hlen') as [loss Hl]. exists loss. by rewrite Hl.
    + destruct (unweighted_loss_ok _ _ Hlen') as [loss Hl]. exists loss. by rewrite Hl.
Qed.


(** ** Grids, one entry at a time *)

Section tabulate.
Local Open Scope R_scope.

Lemma tabulate_ext {A} n (f g : nat → A) :
  (∀ i, (i < n)%nat → f i = g i) → tabulate n f = tabulate n g.
Proof.
  intros Hfg. unfold tabulate. apply map_ext_in. intros i Hi.
  apply in_seq in Hi. apply Hfg. lia.
Qed.

Lemma length_tabulate {A} n (f : nat → A) : length (tabulate n f) = n.
Proof. unfold tabulate. by rewrite length_map, length_seq. Qed.

Lemma map_tabulate {A B} (h : A → B) n (f : nat → A) :
  map h (tabulate n f) = tabulate n (λ i, h (f i)).
Proof. unfold tabulate. apply map_map. Qed.

Lemma tabulate_S {A} n (f : nat → A) :
  tabulate (S n) f = f O :: tabulate n (λ i, f (S i)).
Proof. unfold tabulate. cbn [seq map]. f_equal. rewrite <- seq_shift. apply map_map. Qed.

Lemma tabulate_snoc {A} n (f : nat → A) :
  tabulate (S n) f = (tabulate n f ++ [f n])%list.
Proof. unfold tabulate. rewrite seq_S, map_app. done. Qed.

Lemma zip_with_tabulate {A B C} (h : A → B → C) n f g :
  zip_with h (tabulate n f) (tabulate n g) = tabulate n (λ i, h (f i) (g i)).
Proof.
  revert f g. induction n as [|n IH]; intros f g; [done|].
  rewrite !tabulate_S. cbn [zip_with]. by rewrite IH.
Qed.

Lemma tabulate_nth (l : list R) : l = tabulate (length l) (λ i, nth i l 0).
Proof.
  induction l as [|x l IH]; [done|].
  cbn [length]. rewrite tabulate_S. cbn [nth]. by rewrite <- IH.
Qed.

Lemma reduce_sum_tabulate' n f : tf.reduce_sum (tabulate n f) = Spec.sum_upto n f.
Proof. apply reduce_sum_tabulate. Qed.

Lemma broadcast_data_tabulate {A B C} (h : A → B → C) n f g :
  tf.broadcast_data h (tabulate n f) (tabulate n g) = tabulate n (λ i, h (f i) (g i)).
Proof.
  unfold tf.broadcast_data. rewrite decide_True by (by rewrite !length_tabulate).
  apply zip_with_tabulate.
Qed.

Lemma broadcast_tabulate h n f g :
  tf.broadcast h (tabulate n f) (tabulate n g) = Ok (tabulate n (λ i, h (f i) (g i))).
Proof.
  rewrite broadcast_same_length by (by rewrite !length_tabulate).
  by rewrite zip_with_tabulate.
Qed.

Lemma chunks_tabulate r c (l : tf.vec) :
  length l = (r * c)%nat →
  tf.chunks r c l = tabulate r (λ i, tabulate c (λ j, nth (i * c + j) l 0)).
Proof.
  revert l. induction r as [|r IH]; intros l Hl; [done|].
  rewrite tabulate_S. cbn [tf.chunks]. f_equal.
  - rewrite (tabulate_nth (take c l)), length_take, Nat.min_l by lia.
    apply tabulate_ext. intros j Hj. cbn [Nat.mul Nat.add].
    rewrite <- (take_drop c l) at 2.
    rewrite app_nth1 by (rewrite length_take; lia). done.
  - rewrite IH by (rewrite length_drop; lia).
    apply tabulate_ext. intros i Hi. apply tabulate_ext. intros j Hj.
    rewrite <- (take_drop c l) at 2.
    rewrite app_nth2 by (rewrite length_take; lia).
    f_equal. rewrite length_take. lia.
Qed.

Lemma reduce_sum_axis0_tabulate r c f g :
  foldr (zip_with Rplus) (tabulate c g) (tabulate r (λ i, tabulate c (f i)))
  = tabulate c (λ j, Spec.sum_upto r (λ i, f i j) + g j).
Proof.
  revert g. induction r as [|r IH]; intros g.
  - cbn. apply tabulate_ext. intros. lra.
  - rewrite tabulate_snoc, foldr_app. cbn [foldr].
    rewrite zip_with_tabulate, IH. apply tabulate_ext. intros j Hj. cbn. lra.
Qed.

Lemma reduce_sum_axis0_grid r c f :
  tf.reduce_sum_axis0 (tf.Grid c (tabulate r (λ i, tabulate c (f i))))
  = tabulate c (λ j, Spec.sum_upto r (λ i, f i j)).
Proof.
  unfold tf.reduce_sum_axis0. cbn [tf.ncols tf.rows].
  assert (repeat 0 c = tabulate c (λ _, 0)) as ->.
  { clear. induction c as [|c IH]; [done|]. rewrite tabulate_S. cbn. by rewrite IH. }
  rewrite reduce_sum_axis0_tabulate. apply tabulate_ext. intros. lra.
Qed.

Lemma grid_map_tabulate h r c f :
  tf.grid_map h (tf.Grid c (tabulate r (λ i, tabulate c (f i))))
  = tf.Grid c (tabulate r (λ i, tabulate c (λ j, h (f i j)))).
Proof.
  unfold tf.grid_map. cbn [tf.ncols tf.rows]. f_equal.
  rewrite map_tabulate. apply tabulate_ext. intros. apply map_tabulate.
Qed.

Lemma softmax_axis0_tabulate r c f :
  tf.softmax_axis0 (tf.Grid c (tabulate r (λ i, tabulate c (f i))))
  = tf.Grid c (tabulate r (λ i, tabulate c (λ j,
      exp (f i j) / Spec.sum_upto r (λ k, exp (f k j))))).
Proof.
  unfold tf.softmax_axis0. rewrite grid_map_tabulate, reduce_sum_axis0_grid.
  cbn [tf.ncols tf.rows]. f_equal. rewrite map_tabulate.
  apply tabulate_ext. intros i Hi. apply zip_with_tabulate.
Qed.

Lemma broadcast2_tabulate h r c f g :
  tf.broadcast2 h (tf.Grid c (tabulate r (λ i, tabulate c (f i))))
    (tf.Grid c (tabulate r (λ i, tabulate c (g i))))
  = Ok (tf.Grid c (tabulate r (λ i, tabulate c (λ j, h (f i j) (g i j))))).
Proof.
  unfold tf.broadcast2, tf.broadcast_dim. cbn [tf.ncols tf.rows].
  rewrite !length_tabulate, !decide_True by done. cbn [mbind result_bind].
  do 2 f_equal. rewrite broadcast_data_tabulate.
  apply tabulate_ext. intros i Hi. apply broadcast_data_tabulate.
Qed.

Lemma reduce_sum_all_tabulate r c f :
  tf.reduce_sum_all (tf.Grid c (tabulate r (λ i, tabulate c (f i))))
  = Spec.sum_upto r (λ i, Spec.sum_upto c (f i)).
Proof.
  unfold tf.reduce_sum_all. cbn [tf.rows]. rewrite map_tabulate, reduce_sum_tabulate'.
  apply sum_upto_ext. intros. apply reduce_sum_tabulate'.
Qed.

Lemma reshape_tabulate (t : tf.vec) (eta : Z) n :
  (0 ≤ eta)%Z → length t = (Z.to_nat eta * n)%nat →
  tf.reshape t eta n
  = Ok (tf.Grid n (tabulate (Z.to_nat eta) (λ i, tabulate n (λ j, nth (i * n + j) t 0)))).
Proof.
  intros Heta Hlen. unfold tf.reshape. rewrite !decide_True by done.
  by rewrite chunks_tabulate.
Qed.

Lemma log_sigmoid_spec x : tf.log_sigmoid x = Spec.log_sigmoid x.
Proof.
  unfold tf.log_sigmoid, tf.softplus, Spec.log_sigmoid, Spec.sigmoid.
  assert (0 < 1 + exp (- x)) by (pose proof (exp_pos (- x)); lra).
  unfold Rdiv. rewrite Rmult_1_l, ln_Rinv by done. done.
Qed.

End tabulate.

(** ** The reductions of the grid losses *)

Section grids.
Local Open Scope R_scope.

Lemma self_adversarial_reduce ps ds mv m av al eta (pos neg : tf.vec) :
  ps !! "margin" = Some mv → as_number mv = Some m →
  ps !! "alpha" = Some av → as_number av = Some al →
  ps !! "eta" = Some (VInt eta) → (0 ≤ eta)%Z →
  length neg = (Z.to_nat eta * length pos)%nat →
  run_reduce (Self SelfAdversarial ps ds) pos neg
  = Ok (Spec.self_adversarial m al (Z.to_nat eta) (length pos) pos neg).
Proof.
  intros Hmv Hm Hav Hal Heta Hpos Hlen. unfold run_reduce, evaluate.
  cbn [cls methods_of SelfAdversarialLoss.methods Loss._apply].
  unfold SelfAdversarialLoss._apply. unfold_M. unfold getitem, tf.constant.
  rewrite Hmv, Hm. cbn [fst snd cls _loss_parameters _dependencies].
  rewrite Hav, Hal. cbn [fst snd cls _loss_parameters _dependencies].
  rewrite Heta. cbn [as_dimension fst snd cls _loss_parameters _dependencies].
  rewrite reshape_tabulate by done. cbn [mbind result_bind].
  rewrite !grid_map_tabulate, softmax_axis0_tabulate, broadcast2_tabulate.
  cbn [mbind result_bind]. f_equal.
  rewrite reduce_sum_all_tabulate. unfold Spec.self_adversarial. f_equal.
  - rewrite (tabulate_nth pos) at 1. rewrite !map_tabulate, reduce_sum_tabulate'.
    rewrite sum_upto_opp. f_equal. apply sum_upto_ext. intros i Hi.
    rewrite log_sigmoid_spec. unfold Spec.at_. f_equal. lra.
  - apply sum_upto_ext. intros i Hi. apply sum_upto_ext. intros j Hj.
    rewrite log_sigmoid_spec. done.
Qed.

Lemma softmax_columns_sum_to_one al eta n (neg : tf.vec) g :
  (0 < eta)%Z → length neg = (Z.to_nat eta * n)%nat →
  tf.reshape neg eta n = Ok g →
  tf.reduce_sum_axis0 (tf.softmax_axis0 (tf.grid_map (Rmult al) g)) = repeat 1 n.
Proof.
  intros Heta Hlen. rewrite reshape_tabulate by (done || lia). intros [= <-].
  rewrite grid_map_tabulate, softmax_axis0_tabulate, reduce_sum_axis0_grid.
  assert (repeat 1 n = tabulate n (λ _, 1)) as ->.
  { clear. induction n as [|n IH]; [done|]. rewrite tabulate_S. cbn. by rewrite IH. }
  apply tabulate_ext. intros j Hj.
  rewrite (sum_upto_scal _ (λ i, exp (al * nth (i * n + j) neg 0))).
  apply Rdiv_diag. apply Rgt_not_eq, Rlt_gt, sum_upto_pos; [lia|].
  intros. apply exp_pos.
Qed.

Lemma multiclass_nll_reduce ps ds eta (pos neg : tf.vec) :
  ps !! "eta" = Some (VInt eta) → (0 ≤ eta)%Z →
  length neg = (Z.to_nat eta * length pos)%nat →
  run_reduce (Self MulticlassNLL ps ds) pos neg
  = Ok (Spec.multiclass_nll (Z.to_nat eta) (length pos) pos neg).
Proof.
  intros Heta Hpos Hlen. unfold run_reduce, evaluate.
  cbn [cls methods_of NLLMulticlass.methods Loss._apply].
  unfold NLLMulticlass._apply. unfold_M. unfold getitem.
  rewrite Heta. cbn [as_dimension fst snd cls _loss_parameters _dependencies].
  rewrite !clip_before_exp_spec, !length_map.
  rewrite reshape_tabulate by (rewrite ?length_map; done). cbn [mbind result_bind].
  rewrite grid_map_tabulate, reduce_sum_axis0_grid.
  assert (map exp (map Spec.clip pos)
          = tabulate (length pos) (λ i, exp (Spec.clip (nth i pos 0)))) as ->.
  { rewrite (tabulate_nth pos) at 1. by rewrite !map_tabulate. }
  rewrite broadcast_tabulate. cbn [mbind result_bind].
  rewrite broadcast_tabulate. cbn [mbind result_bind].
  rewrite map_tabulate, reduce_sum_tabulate'. f_equal. unfold Spec.multiclass_nll. f_equal.
  apply sum_upto_ext. intros j Hj. unfold Spec.softmax_score, Spec.at_, Spec.scores_neg_grid.
  do 3 f_equal. apply sum_upto_ext. intros i Hi. f_equal.
  apply nth_map_lt. rewrite Hlen.
  assert (i < Z.to_nat eta)%nat by done. nia.
Qed.

End grids.
(** * The formulas, the constructors and the checks *)

Section formulas.

Local Open Scope R_scope.

Lemma grid_length eta (m n : nat) :
  (0 < eta)%Z → Z.of_nat m = (eta * Z.of_nat n)%Z → m = (Z.to_nat eta * n)%nat.
Proof. intros Heta Hm. apply Nat2Z.inj. rewrite Nat2Z.inj_mul, Z2Nat.id by lia. done. Qed.

(** Claim C2 (the code departs from it).  [get_state] on a name that is
    not among the class-level parameters: here ['margin'], asked of a
    pairwise loss.  The lookup uses [dict.get], so the call returns [None]
    and the handler that was to report the unknown name is never entered. *)
Theorem get_state_unknown_name_returns_None :
  (self ← PairwiseLoss.__init__ 2 None false; (Loss.get_state "margin" self).1)
  = Ok VNone.
Proof. reflexivity. Qed.

(** Claim C4.  For the self_adversarial loss with numbers [m] and [a] as
    margin and alpha, on [n] positives and [eta * n] negatives, the
    reduction returns
    [−Σ_i log_sigmoid(m + scores_pos[i])
     − Σ_i Σ_j p_neg[i][j] · log_sigmoid(−scores_neg_grid[i][j] − m)],
    where the grid has [eta] rows of [n] columns and [p_neg] is the softmax
    of [a · scores_neg_grid] down every column; every column of [p_neg], in
    the formula and in the tensor the code builds, sums to 1. *)
Theorem self_adversarial_loss_formula eta loss_params verbose self margin alpha m a
    (scores_pos scores_neg : tf.vec) :
  SelfAdversarialLoss.__init__ eta loss_params verbose = Ok self →
  _loss_parameters self !! "margin" = Some margin → as_number margin = Some m →
  _loss_parameters self !! "alpha" = Some alpha → as_number alpha = Some a →
  (0 < eta)%Z →
  Z.of_nat (length scores_neg) = (eta * Z.of_nat (length scores_pos))%Z →
  run_reduce self scores_pos scores_neg
  = Ok (Spec.self_adversarial m a (Z.to_nat eta) (length scores_pos)
          scores_pos scores_neg)
  ∧ (∀ j, (j < length scores_pos)%nat →
       Spec.sum_upto (Z.to_nat eta)
         (λ i, Spec.p_neg a (Z.to_nat eta) (length scores_pos) scores_neg i j) = 1)
  ∧ ∃ scores_neg_reshaped,
      tf.reshape scores_neg eta (length scores_pos) = Ok scores_neg_reshaped
      ∧ tf.reduce_sum_axis0
          (tf.softmax_axis0 (tf.grid_map (Rmult a) scores_neg_reshaped))
        = repeat 1 (length scores_pos).
Proof.
  intros Hself Hmv Hm Hav Ha Heta Hlen.
  apply grid_length in Hlen; [|done].
  destruct (construct_inv SelfAdversarial _ _ _ _ Hself) as [d ->].
  cbn [_loss_parameters] in Hmv, Hav.
  split; [|split].
  - eapply self_adversarial_reduce; eauto using resolved_eta. lia.
  - intros j Hj. unfold Spec.p_neg.
    rewrite (sum_upto_scal _
      (λ i, exp (a * Spec.scores_neg_grid (length scores_pos) scores_neg i j))).
    apply Rdiv_diag, Rgt_not_eq, Rlt_gt, sum_upto_pos; [lia|]. intros. apply exp_pos.
  - rewrite reshape_tabulate by (lia || done). eexists. split; [done|].
    apply (softmax_columns_sum_to_one a eta _ scores_neg); [done..|].
    by rewrite reshape_tabulate by (lia || done).
Qed.

(** Claim C5.  For the multiclass_nll loss, on [n] positives and [eta * n]
    negatives, the reduction clamps every score into [-75, 75], lays the
    clamped negatives out as [eta] rows of [n] columns, and returns
    [−Σ_j log(exp(scores_pos[j])
              / (Σ_i exp(scores_neg_grid[i][j]) + exp(scores_pos[j])))]. *)
Theorem multiclass_nll_loss_formula eta loss_params verbose self
    (scores_pos scores_neg : tf.vec) :
  NLLMulticlass.__init__ eta loss_params verbose = Ok self →
  (0 < eta)%Z →
  Z.of_nat (length scores_neg) = (eta * Z.of_nat (length scores_pos))%Z →
  run_reduce self scores_pos scores_neg
  = Ok (Spec.multiclass_nll (Z.to_nat eta) (length scores_pos) scores_pos scores_neg)
  ∧ clip_before_exp scores_pos = map Spec.clip scores_pos
  ∧ clip_before_exp scores_neg = map Spec.clip scores_neg
  ∧ ∀ x, -75 <= Spec.clip x <= 75.
Proof.
  intros Hself Heta Hlen. apply grid_length in Hlen; [|done].
  destruct (construct_inv MulticlassNLL _ _ _ _ Hself) as [d ->].
  split; [|auto using clip_before_exp_spec, clip_range].
  apply multiclass_nll_reduce; [apply resolved_eta|lia|done].
Qed.

(** Claim C6.  For the nll loss the reduction returns
    [Σ log(1 + exp(x))], [x] ranging over the negated clamped positives
    followed by the clamped negatives; the stability helper clamps every
    score into the closed interval [-75, 75] and leaves the scores of that
    interval as they are. *)
Theorem nll_loss_formula loss_parameters dependencies (scores_pos scores_neg : tf.vec) :
  run_reduce (Self NLL loss_parameters dependencies) scores_pos scores_neg
  = Ok (Spec.nll scores_pos scores_neg)
  ∧ (∀ v, clip_before_exp v = map Spec.clip v)
  ∧ (∀ x, -75 <= Spec.clip x <= 75)
  ∧ (∀ x, -75 <= x <= 75 → Spec.clip x = x).
Proof. auto using nll_reduce, clip_before_exp_spec, clip_range, clip_id. Qed.

(** Claim C7.  For the pairwise loss whose margin is the number [m], on
    inputs of equal length, the reduction returns
    [Σ_i max(0, m − scores_pos[i] + scores_neg[i])]; the margin is 1 when
    the constructor is given no mapping or an empty one; and with margin 1,
    [scores_pos = [1.0]] and [scores_neg = [0.0]] the loss is 0. *)
Theorem pairwise_loss_formula eta loss_params verbose self margin m
    (scores_pos scores_neg : tf.vec) :
  PairwiseLoss.__init__ eta loss_params verbose = Ok self →
  _loss_parameters self !! "margin" = Some margin → as_number margin = Some m →
  length scores_pos = length scores_neg →
  run_reduce self scores_pos scores_neg = Ok (Spec.pairwise m scores_pos scores_neg)
  ∧ (loss_params = None ∨ loss_params = Some ∅ → m = 1)
  ∧ (m = 1 → scores_pos = [1] → scores_neg = [0] →
     run_reduce self scores_pos scores_neg = Ok 0).
Proof.
  intros Hself Hmv Hm Hlen.
  assert (run_reduce self scores_pos scores_neg
          = Ok (Spec.pairwise m scores_pos scores_neg)) as Hr.
  { destruct (construct_inv Pairwise _ _ _ _ Hself) as [d ->].
    by eapply pairwise_reduce. }
  split; [done|split].
  - intros Hd. change (construct Pairwise eta loss_params verbose = Ok self) in Hself.
    assert (margin = VInt 1) as ->; [|cbn in Hm; congruence].
    destruct Hd as [-> | ->]; [rewrite construct_None in Hself|];
      cbn [params_when_None] in Hself; rewrite construct_Some in Hself;
      injection Hself as <-; change (Some (VInt 1) = Some margin) in Hmv; congruence.
  - intros -> -> ->. rewrite Hr. f_equal. unfold Spec.pairwise, Spec.at_. cbn.
    unfold Rmax. destruct Rle_dec; lra.
Qed.

(** Claim C8.  For the absolute_margin loss whose margin is the number
    [m], on inputs of equal length, the reduction returns
    [Σ_i (max(0, m + scores_neg[i]) − scores_pos[i])]; the margin is 1 when
    the constructor is given no mapping or an empty one; and with margin 1,
    [scores_pos = [0.5]] and [scores_neg = [0.5]] the loss is 1. *)
Theorem absolute_margin_loss_formula eta loss_params verbose self margin m
    (scores_pos scores_neg : tf.vec) :
  AbsoluteMarginLoss.__init__ eta loss_params verbose = Ok self →
  _loss_parameters self !! "margin" = Some margin → as_number margin = Some m →
  length scores_pos = length scores_neg →
  run_reduce self scores_pos scores_neg
  = Ok (Spec.absolute_margin m scores_pos scores_neg)
  ∧ (loss_params = None ∨ loss_params = Some ∅ → m = 1)
  ∧ (m = 1 → scores_pos = [0.5] → scores_neg = [0.5] →
     run_reduce self scores_pos scores_neg = Ok 1).
Proof.
  intros Hself Hmv Hm Hlen.
  assert (run_reduce self scores_pos scores_neg
          = Ok (Spec.absolute_margin m scores_pos scores_neg)) as Hr.
  { destruct (construct_inv AbsoluteMargin _ _ _ _ Hself) as [d ->].
    by eapply absolute_margin_reduce. }
  split; [done|split].
  - intros Hd. change (construct AbsoluteMargin eta loss_params verbose = Ok self) in Hself.
    assert (margin = VInt 1) as ->; [|cbn in Hm; congruence].
    destruct Hd as [-> | ->]; [rewrite construct_None in Hself|];
      cbn [params_when_None] in Hself; rewrite construct_Some in Hself;
      injection Hself as <-; change (Some (VInt 1) = Some margin) in Hmv; congruence.
  - intros -> -> ->. rewrite Hr. f_equal. unfold Spec.absolute_margin, Spec.at_. cbn.
    unfold Rmax. destruct Rle_dec; lra.
Qed.

(** Claim C10.  For each of the six registered losses and every [eta],
    construction with an empty hyperparameter mapping succeeds and resolves
    every external hyperparameter to its default (margin 1 for pairwise and
    absolute_margin; margin 3 and alpha 0.5 for self_adversarial;
    label_smoothing [None] and label_weighting [False] for bce; none for
    nll and multiclass_nll).  Whatever the mapping, the hyperparameter hook
    raises no [KeyError], so the constructor never reports a missing
    hyperparameter. *)
Theorem construct_with_empty_mapping c eta verbose :
  construct c eta (Some ∅) verbose = Ok (Self c (default_loss_parameters c eta) [])
  ∧ (∀ d, ∃ self, construct c eta (Some d) verbose = Ok self)
  ∧ (∀ d self0 key,
       (Loss._init_hyperparams (methods_of c) (Some d) self0).1 ≠ Raise (KeyError key))
  ∧ (∀ loss_params msg, construct c eta loss_params verbose ≠ Raise (PyException msg)).
Proof.
  split; [by destruct c|split; [|split]].
  - intros d. rewrite construct_Some. eauto.
  - intros d self0 key. by destruct c.
  - intros [d|] msg.
    + by rewrite construct_Some.
    + rewrite construct_None. destruct (params_when_None c); [|done].
      by rewrite construct_Some.
Qed.

End formulas.

Section checks.

Local Open Scope R_scope.

(** Claim C1 (amended).  For the self_adversarial and multiclass_nll
    losses the descriptor flag is false: whatever [eta] and the two inputs,
    [apply] adds no same-length assertion, returns what the reduction
    returns and never the assertion's error, and it succeeds on
    [eta * n] negatives for [n] positives, lengths that differ when [eta]
    is not 1.  The bce loss has a check of its own: every [apply] call adds
    the same-length assertion on its two inputs and yields no loss when
    their lengths differ. *)
Theorem same_size_never_required c eta loss_params verbose self loss_parameters
    dependencies (a b : tf.vec) :
  c = SelfAdversarial ∨ c = MulticlassNLL →
  construct c eta loss_params verbose = Ok self →
  (Loss.get_state "require_same_size_pos_neg" self).1 = Ok (VBool false)
  ∧ _dependencies (run_apply self a b).2 = []
  ∧ (run_apply self a b).1 = run_reduce self a b
  ∧ ¬ is_shape_mismatch (run_apply self a b).1
  ∧ (_loss_parameters self !! "margin" ≠ Some VNone →
     _loss_parameters self !! "alpha" ≠ Some VNone →
     (0 < eta)%Z → Z.of_nat (length b) = (eta * Z.of_nat (length a))%Z →
     ∃ loss, (run_apply self a b).1 = Ok loss)
  ∧ _dependencies (run_apply (Self BCE loss_parameters dependencies) a b).2
    = [tf.Assert (Nat.eqb (length b) (length a)) [length b; length a]]
  ∧ (∀ loss, (run_apply (Self BCE loss_parameters dependencies) a b).1 = Ok loss →
             length a = length b).
Proof.
  intros Hc Hself. destruct (construct_inv _ _ _ _ _ Hself) as [d ->].
  assert (c ≠ BCE) as HBCE by (by destruct Hc as [-> | ->]).
  assert (requires_same_size c = false) as Hflag by (by destruct Hc as [-> | ->]).
  rewrite run_apply_unchecked by done. cbn [fst snd _dependencies].
  repeat split.
  - rewrite get_state_eq. cbn [fst cls]. rewrite decide_True by done. by rewrite Hflag.
  - apply reduce_not_shape_mismatch.
  - intros Hm Ha Heta Hlen. apply grid_length in Hlen; [|done].
    cbn [_loss_parameters] in Hm, Ha. destruct Hc as [-> | ->].
    + destruct (as_number_not_None (dict_get d "margin" DEFAULT_MARGIN_ADVERSARIAL))
        as [m Hmv]; [intros Hn; apply Hm; by rewrite <- Hn|].
      destruct (as_number_not_None (dict_get d "alpha" DEFAULT_ALPHA_ADVERSARIAL))
        as [al Hal]; [intros Hn; apply Ha; by rewrite <- Hn|].
      erewrite self_adversarial_reduce; eauto using resolved_eta. lia.
    + erewrite multiclass_nll_reduce; eauto using resolved_eta. lia.
  - apply BCE_same_size_enforced.
  - apply BCE_same_size_enforced.
Qed.

End checks.

(** ** Concrete calls *)

(** Claim C1 as stated fails for bce: built with [eta = 2] and an empty
    mapping, [apply] on labels of length 1 and predictions of length 2
    fails with the error of the same-length assertion. *)
Lemma bce_enforces_same_size :
  (self ← construct BCE 2 (Some ∅) false; (run_apply self [1%R] [1%R; 2%R]).1)
  = Raise (AssertionFailed [2; 1]).
Proof. reflexivity. Qed.

(** Claim C3 as stated fails for pairwise: built with [eta = 1], [apply]
    on 2 positives and 3 negatives makes no length check, and the sum
    [margin - scores_pos + scores_neg] of the reduction raises the
    runtime's error for shapes that cannot be paired. *)
Lemma pairwise_eta_1_mismatch_raises :
  (self ← construct Pairwise 1 None false;
   (run_apply self [1%R; 2%R] [1%R; 2%R; 3%R]).1)
  = Raise (IncompatibleShapes 2 3).
Proof. reflexivity. Qed.

(** Claim C9 as stated fails: for a bce loss built with
    [label_smoothing = 0.1], after [_set_hyperparams('num_entities', 10)]
    the call on labels of length 1 and predictions of length 2 still fails,
    now with the error of the same-length assertion; and after
    [_set_hyperparams('num_entities', 0)] a call on equal lengths fails on
    the division by zero. *)
Lemma num_entities_set_apply_still_fails :
  (self ← construct BCE 2 (Some {[ "label_smoothing" := VFloat 0.1 ]}) false;
   (run_apply (after_set_hyperparams self "num_entities" (VInt 10))
      [1%R] [1%R; 2%R]).1)
  = Raise (AssertionFailed [2; 1])
  ∧ (self ← construct BCE 2 (Some {[ "label_smoothing" := VFloat 0.1 ]}) false;
     (run_apply (after_set_hyperparams self "num_entities" (VInt 0)) [1%R] [1%R]).1)
    = Raise ZeroDivisionError.
Proof.
  rewrite construct_Some. cbn [mbind result_bind].
  unfold after_set_hyperparams, BCELoss._set_hyperparams, set_loss_parameter.
  cbn [snd cls _loss_parameters _dependencies].
  rewrite !(BCE_apply_with_smoothing _ _ (VFloat 0.1) 0.1 _ (VBool false))
    by reflexivity.
  cbn [as_number]. split.
  - destruct (Req_dec_T 10 0) as [H|_]; [lra|]. reflexivity.
  - destruct (Req_dec_T 0 0) as [_|H]; [reflexivity|lra].
Qed.

(** ** The theorems at concrete inputs *)

Lemma same_size_check_witness :
  (run_apply (Self Pairwise (default_loss_parameters Pairwise 2) [])
     [1%R; 2%R] [1%R; 2%R; 3%R]).1
  = Raise (AssertionFailed [2; 3]).
Proof.
  refine (proj1 (proj2 (same_size_check Pairwise 2 None false
    (Self Pairwise (default_loss_parameters Pairwise 2) [])
    [1%R; 2%R] [1%R; 2%R; 3%R] _ _ _)) _ _).
  - reflexivity.
  - reflexivity.
  - unfold numeric_margin. discriminate.
  - lia.
  - simpl. lia.
Defined.

Lemma same_size_never_required_witness :
  (run_apply (Self MulticlassNLL (default_loss_parameters MulticlassNLL 2) [])
     [1%R] [2%R; 3%R]).1
  = run_reduce (Self MulticlassNLL (default_loss_parameters MulticlassNLL 2) [])
      [1%R] [2%R; 3%R].
Proof.
  refine (proj1 (proj2 (proj2 (same_size_never_required MulticlassNLL 2 None false
    (Self MulticlassNLL (default_loss_parameters MulticlassNLL 2) []) ∅ []
    [1%R] [2%R; 3%R] _ _)))).
  - right. reflexivity.
  - reflexivity.
Defined.

Lemma self_adversarial_loss_formula_witness :
  run_reduce (Self SelfAdversarial (default_loss_parameters SelfAdversarial 2) [])
    [1%R] [2%R; 3%R]
  = Ok (Spec.self_adversarial 3 0.5 2 1 [1%R] [2%R; 3%R]).
Proof.
  refine (proj1 (self_adversarial_loss_formula 2 None false
    (Self SelfAdversarial (default_loss_parameters SelfAdversarial 2) [])
    (VInt 3) (VFloat 0.5) 3 0.5 [1%R] [2%R; 3%R] _ _ _ _ _ _ _)).
  - reflexivity.
  - reflexivity.
  - reflexivity.
  - reflexivity.
  - reflexivity.
  - lia.
  - simpl. lia.
Defined.

Lemma multiclass_nll_loss_formula_witness :
  run_reduce (Self MulticlassNLL (default_loss_parameters MulticlassNLL 2) [])
    [1%R] [2%R; 3%R]
  = Ok (Spec.multiclass_nll 2 1 [1%R] [2%R; 3%R]).
Proof.
  refine (proj1 (multiclass_nll_loss_formula 2 None false
    (Self MulticlassNLL (default_loss_parameters MulticlassNLL 2) [])
    [1%R] [2%R; 3%R] _ _ _)).
  - reflexivity.
  - lia.
  - simpl. lia.
Defined.

Lemma pairwise_loss_formula_witness :
  run_reduce (Self Pairwise (default_loss_parameters Pairwise 2) []) [1%R] [0%R]
  = Ok 0%R.
Proof.
  refine (proj2 (proj2 (pairwise_loss_formula 2 None false
    (Self Pairwise (default_loss_parameters Pairwise 2) [])
    (VInt 1) 1 [1%R] [0%R] _ _ _ _)) _ _ _).
  all: reflexivity.
Defined.

Lemma absolute_margin_loss_formula_witness :
  run_reduce (Self AbsoluteMargin (default_loss_parameters AbsoluteMargin 2) [])
    [0.5%R] [0.5%R]
  = Ok 1%R.
Proof.
  refine (proj2 (proj2 (absolute_margin_loss_formula 2 None false
    (Self AbsoluteMargin (default_loss_parameters AbsoluteMargin 2) [])
    (VInt 1) 1 [0.5%R] [0.5%R] _ _ _ _)) _ _ _).
  all: reflexivity.
Defined.

Lemma label_smoothing_needs_num_entities_witness :
  (run_apply
     (Self BCE (resolved_loss_parameters BCE 2 {[ "label_smoothing" := VFloat 0.1 ]}) [])
     [1%R; 0%R] [0.5%R; 0.25%R]).1
  = Raise num_entities_unknown.
Proof.
  refine (proj1 (proj2 (label_smoothing_needs_num_entities
    (Self BCE (resolved_loss_parameters BCE 2 {[ "label_smoothing" := VFloat 0.1 ]}) [])
    (VFloat 0.1) (VBool false) (VInt 10) [1%R; 0%R] [0.5%R; 0.25%R] _ _ _ _ _))).
  - reflexivity.
  - reflexivity.
  - discriminate.
  - reflexivity.
  - reflexivity.
Defined.

(** * Further properties of the code *)

(** ** The registry and the constructors, in general *)




(** The registry of the module holds exactly the six losses, each under the
    name of its class, with the flag of its decorator. *)
Theorem LOSS_REGISTRY_lookup key d :
  LOSS_REGISTRY !! key = Some d ↔
  ∃ c, key = cls_name c
       ∧ d = Descriptor c (cls_name c) (declared_params c)
               {[ "require_same_size_pos_neg" := VBool (requires_same_size c) ]}.
Proof.
  split.
  - intros Hd.
    assert (key ∈ dom LOSS_REGISTRY) as Hdom by (apply elem_of_dom; eauto).
    change (dom LOSS_REGISTRY) with
      ({[ "pairwise"; "nll"; "absolute_margin"; "self_adversarial";
          "multiclass_nll"; "bce" ]} : gset string) in Hdom.
    assert (∃ c, key = cls_name c) as [c ->].
    { repeat (apply elem_of_union in Hdom as [Hdom|Hdom]);
        apply elem_of_singleton in Hdom as ->;
        [by exists Pairwise|by exists NLL|by exists AbsoluteMargin
        |by exists SelfAdversarial|by exists MulticlassNLL|by exists BCE]. }
    exists c. split; [done|].
    pose proof (registry_getitem_cls c) as Hc. unfold registry_getitem in Hc.
    rewrite Hd in Hc. congruence.
  - intros (c & -> & ->).
    pose proof (registry_getitem_cls c) as Hc. unfold registry_getitem in Hc.
    destruct (LOSS_REGISTRY !! cls_name c); congruence.
Qed.


(** [get_state] never raises and never changes the object: asked for
    [require_same_size_pos_neg] it returns the flag of the class, asked for
    any other name it returns [None]. *)
Theorem get_state_returns_flag_or_None self param_name :
  Loss.get_state param_name self
  = (Ok (if decide (param_name = "require_same_size_pos_neg")
         then VBool (requires_same_size (cls self))
         else VNone), self).
Proof. apply get_state_eq. Qed.

Lemma resolved_depends_on_declared c eta (d d' : gmap string value) :
  (∀ key, key ∈ declared_params c → d !! key = d' !! key) →
  resolved_loss_parameters c eta d = resolved_loss_parameters c eta d'.
Proof.
  intros Hd. destruct c; cbn [resolved_loss_parameters declared_params] in *;
    unfold dict_get; rewrite ?(Hd "margin"), ?(Hd "alpha"), ?(Hd "label_smoothing"),
      ?(Hd "label_weighting") by set_solver; done.
Qed.

Lemma resolved_dom c eta d :
  dom (resolved_loss_parameters c eta d)
  = ({[ "eta" ]} ∪ list_to_set (declared_params c) : gset string).
Proof.
  destruct c; cbn [resolved_loss_parameters declared_params];
    rewrite ?dom_insert_L, dom_singleton_L; set_solver.
Qed.

(** Construction from a mapping always succeeds, stores [eta] and exactly
    the external hyperparameters the decorator of the class declares, and
    depends on the mapping through those keys alone: other keys are
    ignored. *)
Theorem construct_reads_declared_keys c eta verbose (d d' : gmap string value) :
  (∀ key, key ∈ declared_params c → d !! key = d' !! key) →
  ∃ self desc,
    construct c eta (Some d) verbose = Ok self
    ∧ construct c eta (Some d') verbose = Ok self
    ∧ LOSS_REGISTRY !! cls_name c = Some desc
    ∧ dom (_loss_parameters self)
      = ({[ "eta" ]} ∪ list_to_set (external_params desc) : gset string)
    ∧ _loss_parameters self !! "eta" = Some (VInt eta)
    ∧ cls self = c ∧ _dependencies self = [].
Proof.
  intros Hd. eexists _, _. rewrite !construct_Some.
  pose proof (registry_getitem_cls c) as Hc. unfold registry_getitem in Hc.
  destruct (LOSS_REGISTRY !! cls_name c) as [desc|]; [|done]. injection Hc as ->.
  split; [done|]. split; [by rewrite (resolved_depends_on_declared c eta d d')|].
  split; [done|]. cbn [_loss_parameters cls _dependencies external_params].
  split; [apply resolved_dom|]. split; [apply resolved_eta|done].
Qed.

Lemma construct_reads_declared_keys_witness :
  construct Pairwise 2 (Some {[ "margin" := VInt 5 ]}) false
  = construct Pairwise 2 (Some (<[ "alpha" := VInt 7 ]> {[ "margin" := VInt 5 ]})) false.
Proof.
  destruct (construct_reads_declared_keys Pairwise 2 false {[ "margin" := VInt 5 ]}
              (<[ "alpha" := VInt 7 ]> {[ "margin" := VInt 5 ]})) as (self & desc & H1 & H2 & _).
  - intros key Hk. apply list_elem_of_singleton in Hk as ->. reflexivity.
  - rewrite H1, H2. reflexivity.
Defined.

(** Leaving [loss_params] to [None] is the same as passing an empty
    mapping for every class but bce, whose constructor has no branch for
    [None] and fails on it. *)
Theorem construct_None_is_empty_mapping c eta verbose :
  c ≠ BCE →
  construct c eta None verbose = construct c eta (Some ∅) verbose
  ∧ construct BCE eta None verbose = Raise AttributeError.
Proof. intros Hc. split; [|done]. by destruct c. Qed.

Lemma construct_None_is_empty_mapping_witness :
  construct SelfAdversarial 2 None false = construct SelfAdversarial 2 (Some ∅) false.
Proof.
  refine (proj1 (construct_None_is_empty_mapping SelfAdversarial 2 false _)).
  discriminate.
Defined.

(** ** What [apply] keeps and when it succeeds *)

Lemma run_apply_deps_irrelevant c ps ds ds' a b :
  run_apply (Self c ps ds) a b = run_apply (Self c ps ds') a b.
Proof.
  destruct (decide (c = BCE)) as [->|Hc].
  - rewrite !BCE_run_apply. cbn zeta. rewrite !BCE_inputs_check_eq. cbn zeta. cbn [fst].
    pose proof (apply_hook_deps BCE a b BCE ps ds ds') as Hds.
    cbn [methods_of Loss._apply BCELoss.methods] in Hds. by rewrite Hds.
  - unfold run_apply, evaluate. cbn [cls].
    rewrite apply_not_BCE, !Loss_apply_eq, inputs_check_not_BCE, !inputs_check_eq by done.
    cbn [cls _loss_parameters]. done.
Qed.

Lemma run_apply_state c ps ds a b :
  ∃ ds', (run_apply (Self c ps ds) a b).2 = Self c ps ds' ∧ (length ds' ≤ 1)%nat.
Proof.
  destruct (decide (c = BCE)) as [->|Hc].
  - rewrite BCE_run_apply. cbn zeta. cbn [snd]. eexists. split; [done|]. cbn. lia.
  - unfold run_apply, evaluate. cbn [cls].
    rewrite apply_not_BCE, !Loss_apply_eq, inputs_check_not_BCE, !inputs_check_eq by done.
    cbn [cls _loss_parameters].
    destruct (ps !! "eta") as [eta|].
    + match goal with |- context [Self c ps ?d] => set (deps := d) end.
      pose proof (apply_hook_state c a b (Self c ps deps)) as Hst.
      destruct (Loss._apply (methods_of c) a b (Self c ps deps)) as [[t|e] s];
        cbn [fst snd] in *; subst s; (eexists; split; [done|]);
        subst deps; destruct (_ && _); cbn; lia.
    + destruct (requires_same_size c); cbn [snd]; [eexists; split; [done|cbn; lia]|].
      pose proof (apply_hook_state c a b (Self c ps [])) as Hst.
      destruct (Loss._apply (methods_of c) a b (Self c ps [])) as [[t|e] s];
        cbn [fst snd] in *; subst s; (eexists; split; [done|cbn; lia]).
Qed.

(** [apply] changes nothing of the object but its list of pending
    assertions, which it rebuilds with at most one entry; calling it again
    on the same inputs gives the same outcome and the same object. *)
Theorem apply_is_idempotent self (a b : tf.vec) :
  cls (run_apply self a b).2 = cls self
  ∧ _loss_parameters (run_apply self a b).2 = _loss_parameters self
  ∧ (length (_dependencies (run_apply self a b).2) ≤ 1)%nat
  ∧ run_apply (run_apply self a b).2 a b = run_apply self a b.
Proof.
  destruct self as [c ps ds].
  destruct (run_apply_state c ps ds a b) as (ds' & Hst & Hlen). rewrite Hst.
  cbn [cls _loss_parameters _dependencies]. repeat split; [done|].
  apply run_apply_deps_irrelevant.
Qed.

(** On two inputs of equal length the check of the margin and likelihood
    losses never stands in the way: whatever [eta], [apply] returns the
    loss of the reduction. *)
Theorem apply_on_equal_lengths c eta loss_params verbose self
    (scores_pos scores_neg : tf.vec) :
  requires_same_size c = true →
  construct c eta loss_params verbose = Ok self →
  numeric_margin self →
  length scores_pos = length scores_neg →
  ∃ loss,
    (run_apply self scores_pos scores_neg).1 = Ok loss
    ∧ run_reduce self scores_pos scores_neg = Ok loss.
Proof.
  intros Hc Hself Hnum Hlen. destruct (construct_inv _ _ _ _ _ Hself) as [d ->].
  assert (c ≠ BCE) as HBCE by (intros ->; done).
  pose proof (resolved_margin_is_Some c eta d Hc) as Hm.
  rewrite (run_apply_checked _ _ _ _ _ (VInt eta)) by (done || apply resolved_eta).
  cbn zeta. cbn [fst]. rewrite same_size_hook_ok by done.
  destruct (same_size_reduce_outcome c _ [] scores_pos scores_neg Hc Hnum Hm)
    as [(loss & Hr & _)|[(_ & _ & ? & _)|(_ & _ & ? & _)]]; [|done..].
  exists loss. split; [|done]. rewrite Hr.
  destruct (_ && _); [|done].
  by rewrite control_dependencies_one, Hlen, Nat.eqb_refl.
Qed.

Lemma apply_on_equal_lengths_witness :
  ∃ loss,
    (run_apply (Self Pairwise (default_loss_parameters Pairwise 2) [])
       [1%R; 2%R] [3%R; 4%R]).1 = Ok loss
    ∧ run_reduce (Self Pairwise (default_loss_parameters Pairwise 2) [])
        [1%R; 2%R] [3%R; 4%R] = Ok loss.
Proof.
  refine (apply_on_equal_lengths Pairwise 2 None false
    (Self Pairwise (default_loss_parameters Pairwise 2) []) [1%R; 2%R] [3%R; 4%R] _ _ _ _).
  - reflexivity.
  - reflexivity.
  - unfold numeric_margin. discriminate.
  - reflexivity.
Defined.

Section clip.
Local Open Scope R_scope.

(** [clip_before_exp] keeps the length, is monotone, and clipping twice is
    clipping once. *)
Theorem clip_before_exp_idempotent (v : tf.vec) :
  clip_before_exp (clip_before_exp v) = clip_before_exp v
  ∧ length (clip_before_exp v) = length v
  ∧ (∀ i j, nth i v 0 <= nth j v 0 →
            (i < length v)%nat → (j < length v)%nat →
            nth i (clip_before_exp v) 0 <= nth j (clip_before_exp v) 0).
Proof.
  rewrite !clip_before_exp_spec. split; [|split].
  - rewrite map_map. apply map_ext. intros x. apply clip_id, clip_range.
  - apply length_map.
  - intros i j Hij Hi Hj. rewrite !nth_map_lt by done.
    unfold Spec.clip. repeat destruct Rlt_dec; lra.
Qed.

End clip.

Section grid_errors.
Local Open Scope R_scope.

Lemma reshape_bad_size (t : tf.vec) eta n :
  (0 ≤ eta)%Z → length t ≠ (Z.to_nat eta * n)%nat →
  tf.reshape t eta n = Raise (ReshapeError (length t) eta n).
Proof.
  intros Heta Hlen. unfold tf.reshape.
  rewrite decide_True, decide_False by done. done.
Qed.

Lemma self_adversarial_reduce_bad_size ps ds mv m av al eta (pos neg : tf.vec) :
  ps !! "margin" = Some mv → as_number mv = Some m →
  ps !! "alpha" = Some av → as_number av = Some al →
  ps !! "eta" = Some (VInt eta) → (0 ≤ eta)%Z →
  length neg ≠ (Z.to_nat eta * length pos)%nat →
  run_reduce (Self SelfAdversarial ps ds) pos neg
  = Raise (ReshapeError (length neg) eta (length pos)).
Proof.
  intros Hmv Hm Hav Hal Heta Hpos Hlen. unfold run_reduce, evaluate.
  cbn [cls methods_of SelfAdversarialLoss.methods Loss._apply].
  unfold SelfAdversarialLoss._apply. unfold_M. unfold getitem, tf.constant.
  rewrite Hmv, Hm. cbn [fst snd cls _loss_parameters _dependencies].
  rewrite Hav, Hal. cbn [fst snd cls _loss_parameters _dependencies].
  rewrite Heta. cbn [as_dimension fst snd cls _loss_parameters _dependencies].
  by rewrite reshape_bad_size.
Qed.

Lemma multiclass_nll_reduce_bad_size ps ds eta (pos neg : tf.vec) :
  ps !! "eta" = Some (VInt eta) → (0 ≤ eta)%Z →
  length neg ≠ (Z.to_nat eta * length pos)%nat →
  run_reduce (Self MulticlassNLL ps ds) pos neg
  = Raise (ReshapeError (length neg) eta (length pos)).
Proof.
  intros Heta Hpos Hlen. unfold run_reduce, evaluate.
  cbn [cls methods_of NLLMulticlass.methods Loss._apply].
  unfold NLLMulticlass._apply. unfold_M. unfold getitem.
  rewrite Heta. cbn [as_dimension fst snd cls _loss_parameters _dependencies].
  rewrite !clip_before_exp_spec, reshape_bad_size by (rewrite ?length_map; done).
  by rewrite !length_map.
Qed.

Lemma grid_reduce_bad_size c eta d (pos neg : tf.vec) :
  c = SelfAdversarial ∨ c = MulticlassNLL →
  resolved_loss_parameters c eta d !! "margin" ≠ Some VNone →
  resolved_loss_parameters c eta d !! "alpha" ≠ Some VNone →
  (0 ≤ eta)%Z → length neg ≠ (Z.to_nat eta * length pos)%nat →
  run_reduce (Self c (resolved_loss_parameters c eta d) []) pos neg
  = Raise (ReshapeError (length neg) eta (length pos)).
Proof.
  intros Hc Hm Ha Heta Hlen. destruct Hc as [-> | ->].
  - destruct (as_number_not_None (dict_get d "margin" DEFAULT_MARGIN_ADVERSARIAL))
      as [m Hmv]; [intros Hn; apply Hm; by rewrite <- Hn|].
    destruct (as_number_not_None (dict_get d "alpha" DEFAULT_ALPHA_ADVERSARIAL))
      as [al Hal]; [intros Hn; apply Ha; by rewrite <- Hn|].
    eapply self_adversarial_reduce_bad_size; eauto using resolved_eta.
  - eapply multiclass_nll_reduce_bad_size; eauto using resolved_eta.
Qed.

(** The self_adversarial and multiclass_nll losses yield a loss exactly
    when there are [eta] negatives for every positive; on any other number
    of negatives [apply] fails in the reshape. *)
Theorem grid_loss_needs_eta_negatives_per_positive c eta loss_params verbose self
    (scores_pos scores_neg : tf.vec) :
  c = SelfAdversarial ∨ c = MulticlassNLL →
  construct c eta loss_params verbose = Ok self →
  _loss_parameters self !! "margin" ≠ Some VNone →
  _loss_parameters self !! "alpha" ≠ Some VNone →
  (0 ≤ eta)%Z →
  ((∃ loss, (run_apply self scores_pos scores_neg).1 = Ok loss)
   ↔ Z.of_nat (length scores_neg) = (eta * Z.of_nat (length scores_pos))%Z)
  ∧ (Z.of_nat (length scores_neg) ≠ (eta * Z.of_nat (length scores_pos))%Z →
     (run_apply self scores_pos scores_neg).1
     = Raise (ReshapeError (length scores_neg) eta (length scores_pos))).
Proof.
  intros Hc Hself Hm Ha Heta. destruct (construct_inv _ _ _ _ _ Hself) as [d ->].
  assert (c ≠ BCE) as HBCE by (by destruct Hc as [-> | ->]).
  assert (requires_same_size c = false) as Hflag by (by destruct Hc as [-> | ->]).
  rewrite run_apply_unchecked by done. cbn [fst _loss_parameters] in *.
  assert (Z.of_nat (length scores_neg) = (eta * Z.of_nat (length scores_pos))%Z
          ↔ length scores_neg = (Z.to_nat eta * length scores_pos)%nat) as Hiff.
  { split; intros H.
    - apply Nat2Z.inj. rewrite Nat2Z.inj_mul, Z2Nat.id by lia. done.
    - rewrite H, Nat2Z.inj_mul, Z2Nat.id by lia. done. }
  assert (length scores_neg ≠ (Z.to_nat eta * length scores_pos)%nat →
          run_reduce (Self c (resolved_loss_parameters c eta d) []) scores_pos scores_neg
          = Raise (ReshapeError (length scores_neg) eta (length scores_pos))) as Hbad
    by (intros; by apply grid_reduce_bad_size).
  split; [split|].
  - intros [loss Hl]. apply Hiff.
    destruct (decide (length scores_neg = (Z.to_nat eta * length scores_pos)%nat));
      [done|]. rewrite Hbad in Hl; done.
  - intros Hlen%Hiff. destruct Hc as [-> | ->].
    + destruct (as_number_not_None (dict_get d "margin" DEFAULT_MARGIN_ADVERSARIAL))
        as [m Hmv]; [intros Hn; apply Hm; by rewrite <- Hn|].
      destruct (as_number_not_None (dict_get d "alpha" DEFAULT_ALPHA_ADVERSARIAL))
        as [al Hal]; [intros Hn; apply Ha; by rewrite <- Hn|].
      erewrite self_adversarial_reduce; eauto using resolved_eta.
    + erewrite multiclass_nll_reduce; eauto using resolved_eta.
  - intros Hne. apply Hbad. by rewrite <- Hiff.
Qed.

Lemma grid_loss_needs_eta_negatives_per_positive_witness :
  (run_apply (Self MulticlassNLL (default_loss_parameters MulticlassNLL 2) [])
     [1%R; 2%R] [1%R; 2%R; 3%R]).1
  = Raise (ReshapeError 3 2 2).
Proof.
  refine (proj2 (grid_loss_needs_eta_negatives_per_positive MulticlassNLL 2 None false
    (Self MulticlassNLL (default_loss_parameters MulticlassNLL 2) [])
    [1%R; 2%R] [1%R; 2%R; 3%R] _ _ _ _ _) _).
  - right. reflexivity.
  - reflexivity.
  - discriminate.
  - discriminate.
  - lia.
  - simpl. lia.
Defined.

End grid_errors.

(** ** Bounds on the losses *)

Section bounds.
Local Open Scope R_scope.

Lemma sum_upto_le n f g :
  (∀ i, (i < n)%nat → f i <= g i) → Spec.sum_upto n f <= Spec.sum_upto n g.
Proof.
  induction n as [|n IH]; intros Hfg; simpl; [lra|].
  pose proof (Hfg n ltac:(lia)). assert (Spec.sum_upto n f <= Spec.sum_upto n g).
  { apply IH. intros. apply Hfg. lia. }
  lra.
Qed.

Lemma sum_upto_const n c : Spec.sum_upto n (λ _, c) = INR n * c.
Proof.
  induction n as [|n IH]; [simpl; lra|].
  rewrite S_INR. simpl. rewrite IH. lra.
Qed.



Lemma softplus_pos x : 0 < ln (1 + exp x).
Proof.
  rewrite <- ln_1. apply ln_increasing; [lra|]. pose proof (exp_pos x). lra.
Qed.

Lemma softplus_mono x y : x <= y → ln (1 + exp x) <= ln (1 + exp y).
Proof.
  intros [Hlt | ->]; [|lra]. left. apply ln_increasing.
  - pose proof (exp_pos x). lra.
  - apply exp_increasing in Hlt. lra.
Qed.


End bounds.

Section loss_bounds.
Local Open Scope R_scope.


Lemma clipped_scores_range (pos neg : tf.vec) i :
  (i < length pos + length neg)%nat →
  -75 <= nth i (map (λ p, - Spec.clip p) pos ++ map Spec.clip neg)%list 0 <= 75.
Proof.
  intros Hi.
  assert (In (nth i (map (λ p, - Spec.clip p) pos ++ map Spec.clip neg)%list 0)
            (map (λ p, - Spec.clip p) pos ++ map Spec.clip neg)%list) as Hin.
  { apply nth_In. by rewrite length_app, !length_map. }
  apply in_app_or in Hin as [Hin | Hin]; apply in_map_iff in Hin as (p & <- & _);
    pose proof (clip_range p); lra.
Qed.


(** The nll loss of [N] scores lies between [N · log(1 + exp(-75))] and
    [N · log(1 + exp(75))]: clipping keeps every term away from zero and
    from overflow. *)
Theorem nll_loss_bounds loss_parameters dependencies (scores_pos scores_neg : tf.vec) :
  ∃ loss,
    run_reduce (Self NLL loss_parameters dependencies) scores_pos scores_neg = Ok loss
    ∧ INR (length scores_pos + length scores_neg) * ln (1 + exp (-75)) <= loss
    ∧ loss <= INR (length scores_pos + length scores_neg) * ln (1 + exp 75)
    ∧ 0 <= loss.
Proof.
  eexists. split; [apply nll_reduce|]. unfold Spec.nll. cbn zeta.
  rewrite length_app, !length_map. unfold Spec.at_.
  assert (INR (length scores_pos + length scores_neg) * ln (1 + exp (-75))
          <= Spec.sum_upto (length scores_pos + length scores_neg)
               (λ i, ln (1 + exp (nth i
                  (map (λ p, - Spec.clip p) scores_pos ++ map Spec.clip scores_neg)%list 0))))
    as Hlow.
  { rewrite <- sum_upto_const. apply sum_upto_le. intros i Hi.
    apply softplus_mono. by apply clipped_scores_range. }
  split; [done|split].
  - rewrite <- sum_upto_const. apply sum_upto_le. intros i Hi.
    apply softplus_mono. by apply clipped_scores_range.
  - pose proof (softplus_pos (-75)). pose proof (pos_INR (length scores_pos + length scores_neg)).
    nra.
Qed.



End loss_bounds.

(** ** Binary cross entropy: the two reductions *)

Section bce_formulas.
Local Open Scope R_scope.

Lemma BCE_apply_without_smoothing ps ds w (y_true y_pred : tf.vec) :
  ps !! "label_smoothing" = Some VNone → ps !! "label_weighting" = Some w →
  (run_apply (Self BCE ps ds) y_true y_pred).1 =
  tf.control_dependencies
    [tf.Assert (Nat.eqb (length y_pred) (length y_true)) [length y_pred; length y_true]]
    ((if truthy w then BCELoss.weighted_loss else BCELoss.unweighted_loss) y_true y_pred).
Proof.
  intros Hs Hw. rewrite BCE_run_apply. cbn zeta. cbn [fst].
  rewrite BCE_inputs_check_eq. cbn zeta. cbn [fst]. rewrite Hs. cbn [BCELoss.is_not_None andb].
  unfold BCELoss._apply. unfold_M. unfold getitem. rewrite Hs.
  cbn [BCELoss.is_not_None fst snd cls _loss_parameters _dependencies]. rewrite Hw.
  cbn [fst snd cls _loss_parameters _dependencies]. by destruct (truthy w).
Qed.

(** The cross entropy of one label and one logit, as TensorFlow computes
    it, is [−(z · log σ(x) + (1 − z) · log(1 − σ(x)))]. *)
Lemma sigmoid_cross_entropy_spec z x :
  tf.sigmoid_cross_entropy_with_logits z x
  = - (z * ln (Spec.sigmoid x) + (1 - z) * ln (1 - Spec.sigmoid x)).
Proof.
  unfold tf.sigmoid_cross_entropy_with_logits, Spec.sigmoid.
  pose proof (exp_pos (- x)) as He. pose proof (exp_pos x) as He'.
  assert (exp x * exp (- x) = 1) as Hinv by (rewrite <- exp_plus, Rplus_opp_r; apply exp_0).
  assert (ln (1 / (1 + exp (- x))) = - ln (1 + exp (- x))) as ->.
  { unfold Rdiv. rewrite Rmult_1_l. apply ln_Rinv. lra. }
  assert (1 - 1 / (1 + exp (- x)) = exp (- x) * / (1 + exp (- x))) as -> by (field; lra).
  rewrite ln_mult, ln_exp, ln_Rinv by (try apply Rinv_0_lt_compat; lra).
  assert (ln (1 + exp x) = x + ln (1 + exp (- x))) as Hflip.
  { assert (1 + exp x = exp x * (1 + exp (- x))) as -> by nra.
    rewrite ln_mult, ln_exp by lra. done. }
  unfold Rmax, Rabs. destruct Rle_dec as [Hle|Hgt]; destruct Rcase_abs as [Hneg|Hpos];
    rewrite ?Ropp_involutive, ?Hflip; try lra.
Qed.

(** With label smoothing and label weighting off, the bce loss on labels
    and logits of equal length is the summed binary cross entropy
    [−Σ (y · log σ(x) + (1 − y) · log(1 − σ(x)))]: a sum, not the mean of
    the class docstring. *)
Theorem bce_is_summed_cross_entropy self w (y_true y_pred : tf.vec) :
  cls self = BCE →
  _loss_parameters self !! "label_smoothing" = Some VNone →
  _loss_parameters self !! "label_weighting" = Some w →
  truthy w = false →
  length y_true = length y_pred →
  (run_apply self y_true y_pred).1
  = Ok (- Spec.sum_upto (length y_true) (λ i,
          Spec.at_ y_true i * ln (Spec.sigmoid (Spec.at_ y_pred i))
          + (1 - Spec.at_ y_true i) * ln (1 - Spec.sigmoid (Spec.at_ y_pred i)))).
Proof.
  destruct self as [c ps ds]. cbn [cls _loss_parameters]. intros -> Hs Hw Hf Hlen.
  rewrite (BCE_apply_without_smoothing _ _ w) by done. rewrite Hf.
  rewrite control_dependencies_one, Hlen, Nat.eqb_refl.
  unfold BCELoss.unweighted_loss. rewrite broadcast_same_length by done.
  cbn [mbind result_bind]. f_equal.
  rewrite reduce_sum_nth, length_zip_with, <- Hlen, Nat.min_id, <- sum_upto_opp.
  apply sum_upto_ext. intros i Hi. unfold Spec.at_.
  rewrite nth_zip_with by lia. apply sigmoid_cross_entropy_spec.
Qed.

(** With label weighting on (and smoothing off), the bce loss is
    [−Σ ((1 − wt) · y · log σ(x) + wt · (1 − y) · log(1 − σ(x) + 1e-6))]
    where [wt] is the mean of the labels. *)
Theorem bce_weighted_formula self w (y_true y_pred : tf.vec) :
  cls self = BCE →
  _loss_parameters self !! "label_smoothing" = Some VNone →
  _loss_parameters self !! "label_weighting" = Some w →
  truthy w = true →
  length y_true = length y_pred →
  (run_apply self y_true y_pred).1
  = Ok (let wt := Spec.sum_upto (length y_true) (Spec.at_ y_true)
                  / INR (length y_true) in
        - Spec.sum_upto (length y_true) (λ i,
            (1 - wt) * Spec.at_ y_true i * Spec.log_sigmoid (Spec.at_ y_pred i)
            + wt * (1 - Spec.at_ y_true i)
              * ln (1 - Spec.sigmoid (Spec.at_ y_pred i) + 1 / 1000000))).
Proof.
  destruct self as [c ps ds]. cbn [cls _loss_parameters]. intros -> Hs Hw Ht Hlen.
  rewrite (BCE_apply_without_smoothing _ _ w) by done. rewrite Ht.
  rewrite control_dependencies_one, Hlen, Nat.eqb_refl.
  unfold BCELoss.weighted_loss.
  rewrite !broadcast_same_length by (rewrite !length_map; done).
  cbn [mbind result_bind].
  rewrite broadcast_same_length by (rewrite !length_zip_with, !length_map; lia).
  cbn [mbind result_bind]. f_equal. cbn zeta. f_equal.
  unfold tf.reduce_mean. rewrite (reduce_sum_nth y_true).
  rewrite reduce_sum_nth, !length_zip_with, !length_map, <- Hlen, !Nat.min_id.
  apply sum_upto_ext. intros i Hi. unfold Spec.at_.
  rewrite nth_zip_with by (rewrite !length_zip_with, !length_map; lia).
  rewrite !nth_zip_with by (rewrite !length_map; lia).
  rewrite !nth_map_lt by lia. rewrite log_sigmoid_spec. done.
Qed.

(** While label smoothing is off, [num_entities] is never read: setting
    it, to any value, leaves the outcome of [apply] as it was. *)
Theorem num_entities_unused_without_smoothing self w v (y_true y_pred : tf.vec) :
  cls self = BCE →
  _loss_parameters self !! "label_smoothing" = Some VNone →
  _loss_parameters self !! "label_weighting" = Some w →
  (run_apply (after_set_hyperparams self "num_entities" v) y_true y_pred).1
  = (run_apply self y_true y_pred).1.
Proof.
  destruct self as [c ps ds]. cbn [cls _loss_parameters]. intros -> Hs Hw.
  unfold after_set_hyperparams, BCELoss._set_hyperparams, set_loss_parameter.
  cbn [snd cls _loss_parameters _dependencies].
  rewrite !(BCE_apply_without_smoothing _ _ w) by (by rewrite ?lookup_insert_ne). done.
Qed.

End bce_formulas.

(** ** More bounds, and the theorems at concrete inputs *)

Section more_bounds.
Local Open Scope R_scope.


End more_bounds.





Lemma bce_is_summed_cross_entropy_witness :
  ∃ loss,
    (run_apply (Self BCE (default_loss_parameters BCE 2) []) [1%R; 0%R] [2%R; 3%R]).1
    = Ok loss.
Proof.
  eexists.
  refine (bce_is_summed_cross_entropy (Self BCE (default_loss_parameters BCE 2) [])
    (VBool false) [1%R; 0%R] [2%R; 3%R] _ _ _ _ _); reflexivity.
Defined.

Lemma bce_weighted_formula_witness :
  ∃ loss,
    (run_apply
       (Self BCE (resolved_loss_parameters BCE 2 {[ "label_weighting" := VBool true ]}) [])
       [1%R; 0%R] [2%R; 3%R]).1
    = Ok loss.
Proof.
  eexists.
  refine (bce_weighted_formula
    (Self BCE (resolved_loss_parameters BCE 2 {[ "label_weighting" := VBool true ]}) [])
    (VBool true) [1%R; 0%R] [2%R; 3%R] _ _ _ _ _); reflexivity.
Defined.

Lemma num_entities_unused_without_smoothing_witness :
  (run_apply
     (after_set_hyperparams (Self BCE (default_loss_parameters BCE 2) [])
        "num_entities" (VInt 0)) [1%R] [2%R]).1
  = (run_apply (Self BCE (default_loss_parameters BCE 2) []) [1%R] [2%R]).1.
Proof.
  refine (num_entities_unused_without_smoothing
    (Self BCE (default_loss_parameters BCE 2) []) (VBool false) (VInt 0)
    [1%R] [2%R] _ _ _); reflexivity.
Defined.
